(** * The firmware-update lifecycle controller of [sevensense_device/device.py]

    A shallow embedding of the [Device] class: its three mutable fields, the
    timeout guard, the wait-for-Idle loop, the two supervised phases
    (download, install) and the [update] orchestration.

    Modelling choices.
    - Clock readings ([time.time()], a float number of seconds) are rationals;
      the integer constants of the module are integers, promoted where Python
      promotes them.
    - Everything the code asks of its surroundings (the clock, the HTTP probe,
      the battery sensor, [process.poll()], the child's stdout, and what
      another thread writes to [device.state] while this one sleeps) is an
      oracle indexed by the number of such questions asked so far ([tick]).
    - The effects of the code are recorded in order in a [trace]: field
      writes, emitted log records, process spawn / terminate / wait, sleeps.
    - The [while] loops take a fuel argument; a run that exhausts it yields
      [None].
    - The embedding comes in two layers.  The first takes [subprocess.Popen]
      to succeed and the draining of the child's output to return.  Module
      [Fallible] lifts both assumptions: [Popen] may raise, and the
      [readline] loop of the install phase may block for ever (the pipe is
      never closed) or raise (the output does not decode).  The two layers
      are related by [fallible_update_returns_as_update] (every run of the
      second that returns is a run of the first) and
      [fallible_update_unhindered] (they coincide when no spawn fails and
      every drain reaches the end of the output).
    - Clock readings are exact: the rounding of the float subtraction in the
      timeout guard is not modelled.
    - [initiate_update] only starts [update] on a thread of its own; the
      thread itself is not modelled. *)

From Stdlib Require Import ZArith QArith Lqa Lia Bool List String Ascii DecimalString.
Import ListNotations.

(** ** Module constants *)

Definition MAX_UPGRADE_TIME : Z := 10 * 60.
Definition MAX_DOWNLOAD_TIME : Z := 5 * 60.
Definition MAX_WAIT_FOR_IDLE_TIME : Z := 10 * 60.
Definition POLLING_TIME : Q := 0.1.

Definition DOWNLOAD_URL : string :=
  "https://raw.githubusercontent.com/MattiaHaas/sevensense/refs/heads/main/images/install.sh".
Definition INTERNET_CONNECTION_CHECK_URL : string := "https://www.google.com".

(** ** Enumerations and the device record *)

Inductive DeviceState : Set :=
| Positioning
| Idle
| Downloading
| Upgrading
| Downgrading.

Inductive UpgradeStatus : Set :=
| No_Update
| Success
| Failed.

Definition DeviceState_eq_dec (a b : DeviceState) : {a = b} + {a <> b}.
Proof. decide equality. Defined.

Definition UpgradeStatus_eq_dec (a b : UpgradeStatus) : {a = b} + {a <> b}.
Proof. decide equality. Defined.

Record Device : Set := mkDevice {
  software_version : Z;
  device_type : option string;
  last_upgrade_status : UpgradeStatus;
  state : DeviceState
}.

(** [Device.__init__], given the two environment variables already read. *)
Definition Device_init (initial_version : Z) (dut : option string) : Device :=
  {| software_version := initial_version;
     device_type := dut;
     last_upgrade_status := No_Update;
     state := Idle |}.

(** ** Logging *)

Inductive Level : Set := DEBUG | INFO | WARNING | ERROR.

Definition levelno (l : Level) : Z :=
  match l with
  | DEBUG => 10
  | INFO => 20
  | WARNING => 30
  | ERROR => 40
  end.

(** [logger.setLevel(logging.INFO)] *)
Definition logger_level : Level := INFO.

Definition isEnabledFor (l : Level) : bool := (levelno logger_level <=? levelno l)%Z.

(** ** Effects and the world *)

Inductive Event : Type :=
| EvLog (lvl : Level) (msg : string)
| EvSetState (s : DeviceState)
| EvSetStatus (r : UpgradeStatus)
| EvSetVersion (v : Z)
| EvSpawn (pid : nat) (command : list string)
| EvTerminate (pid : nat)
| EvJoin (pid : nat)
| EvSleep (seconds : Q).

Record Env : Type := mkEnv {
  (** what [time.time()] returns *)
  time_at : nat -> Q;
  (** [requests.get]: [None] for a [RequestException], else the status code *)
  http_get_at : nat -> option Z;
  (** [psutil.sensors_battery()]: [None] without a battery, else its
      [power_plugged] field, itself [None] when undetermined *)
  sensors_battery_at : nat -> option (option bool);
  (** [process.poll()] of child [pid]: [None] while it runs, else the return code *)
  poll_at : nat -> nat -> option Z;
  (** the lines [process.stdout.readline()] hands out before an empty read *)
  stdout_at : nat -> nat -> list string;
  (** a write to [device.state] by another thread, landing during a sleep *)
  foreign_write_at : nat -> option DeviceState
}.

Record World : Type := mkWorld {
  dev : Device;
  tick : nat;
  spawned : nat;
  trace : list Event
}.

Definition M (A : Type) : Type := World -> option (A * World).

Definition ret {A} (a : A) : M A := fun w => Some (a, w).

Definition bind {A B} (c : M A) (k : A -> M B) : M B :=
  fun w => match c w with
           | Some (a, w') => k a w'
           | None => None
           end.

Definition out_of_fuel {A} : M A := fun _ => None.

Declare Scope dev_scope.
Delimit Scope dev_scope with dev.
Notation "x <- c ;; k" := (bind c (fun x => k))
  (at level 61, c at next level, right associativity) : dev_scope.
Notation "c ;; k" := (bind c (fun _ => k))
  (at level 61, right associativity) : dev_scope.
Open Scope dev_scope.

Definition set_dev (d : Device) (w : World) : World :=
  {| dev := d; tick := tick w; spawned := spawned w; trace := trace w |}.

Definition emit (e : Event) : M unit :=
  fun w => Some (tt, {| dev := dev w; tick := tick w; spawned := spawned w;
                        trace := trace w ++ [e] |}).

Definition bump (w : World) : World :=
  {| dev := dev w; tick := S (tick w); spawned := spawned w; trace := trace w |}.

Definition ask {A} (oracle : nat -> A) : M A :=
  fun w => Some (oracle (tick w), bump w).

Definition log (lvl : Level) (msg : string) : M unit :=
  if isEnabledFor lvl then emit (EvLog lvl msg) else ret tt.

(** Field writes *)

Definition set_state (s : DeviceState) : M unit :=
  fun w => emit (EvSetState s)
             (set_dev {| software_version := software_version (dev w);
                         device_type := device_type (dev w);
                         last_upgrade_status := last_upgrade_status (dev w);
                         state := s |} w).

Definition set_last_upgrade_status (r : UpgradeStatus) : M unit :=
  fun w => emit (EvSetStatus r)
             (set_dev {| software_version := software_version (dev w);
                         device_type := device_type (dev w);
                         last_upgrade_status := r;
                         state := state (dev w) |} w).

Definition set_software_version (v : Z) : M unit :=
  fun w => emit (EvSetVersion v)
             (set_dev {| software_version := v;
                         device_type := device_type (dev w);
                         last_upgrade_status := last_upgrade_status (dev w);
                         state := state (dev w) |} w).

(** Getters *)

Definition get_last_upgrade_result : M UpgradeStatus :=
  fun w => Some (last_upgrade_status (dev w), w).

Definition get_current_state : M DeviceState :=
  fun w => Some (state (dev w), w).

Definition get_current_version : M Z :=
  fun w => Some (software_version (dev w), w).

(** Python values used as conditions *)

Definition truthy (v : option bool) : bool :=
  match v with
  | Some true => true
  | _ => false
  end.

Definition is_not_None {A} (v : option A) : bool :=
  match v with
  | Some _ => true
  | None => false
  end.

Definition str_of_int (z : Z) : string := NilZero.string_of_int (Z.to_int z).

Definition Qltb (x y : Q) : bool := (Qnum x * QDen y <? Qnum y * QDen x)%Z.

(** [str.strip()] on the ASCII white space *)

Definition is_space (c : ascii) : bool :=
  let n := nat_of_ascii c in
  ((9 <=? n) && (n <=? 13) || (28 <=? n) && (n <=? 32))%nat.

Fixpoint lstrip (s : string) : string :=
  match s with
  | EmptyString => EmptyString
  | String c r => if is_space c then lstrip r else s
  end.

Fixpoint rstrip (s : string) : string :=
  match s with
  | EmptyString => EmptyString
  | String c r =>
      match rstrip r with
      | EmptyString => if is_space c then EmptyString else String c EmptyString
      | r' => String c r'
      end
  end.

Definition strip (s : string) : string := rstrip (lstrip s).

Section Controller.

Variable E : Env.

(** ** The surroundings *)

Definition time_time : M Q := ask (time_at E).

(** [time.sleep]: the only point where another thread's write to
    [device.state] is observed. *)
Definition time_sleep (seconds : Q) : M unit :=
  emit (EvSleep seconds) ;;
  w <- ask (foreign_write_at E) ;;
  match w with
  | Some s =>
      fun w0 => Some (tt, set_dev {| software_version := software_version (dev w0);
                                     device_type := device_type (dev w0);
                                     last_upgrade_status := last_upgrade_status (dev w0);
                                     state := s |} w0)
  | None => ret tt
  end.

Definition Popen (command : list string) : M nat :=
  fun w => Some (spawned w,
                 {| dev := dev w; tick := tick w; spawned := S (spawned w);
                    trace := trace w ++ [EvSpawn (spawned w) command] |}).

Definition process_poll (pid : nat) : M (option Z) := ask (fun t => poll_at E t pid).

Definition process_terminate (pid : nat) : M unit := emit (EvTerminate pid).

Definition process_wait (pid : nat) : M unit := emit (EvJoin pid).

(** The [readline] loop of [install_image]: every line up to the first empty
    read is logged at debug level. *)
Fixpoint log_lines (lines : list string) : M unit :=
  match lines with
  | [] => ret tt
  | output :: rest =>
      if String.eqb output "" then ret tt
      else log DEBUG (strip output) ;; log_lines rest
  end.

Definition drain_stdout (pid : nat) : M unit :=
  lines <- ask (fun t => stdout_at E t pid) ;;
  log_lines lines.

(** ** Probes *)

Definition get_connection_status : M bool :=
  response <- ask (http_get_at E) ;;
  match response with
  | Some status_code => ret (status_code =? 200)%Z
  | None => ret false
  end.

Definition get_power_status : M (option bool) :=
  battery <- ask (sensors_battery_at E) ;;
  match battery with
  | Some power_plugged => ret power_plugged
  | None => log WARNING "Unable to determine battery status." ;; ret (Some false)
  end.

(** ** The timeout guard *)

Definition check_time_not_exceeded (start_time duration : Q) : M bool :=
  now <- time_time ;;
  if Qltb (start_time - now) duration then ret true else ret false.

Definition check_install_timeout (start_time : Q) : M bool :=
  check_time_not_exceeded start_time (inject_Z MAX_UPGRADE_TIME).

Definition check_download_timeout (start_time : Q) : M bool :=
  check_time_not_exceeded start_time (inject_Z MAX_DOWNLOAD_TIME).

(** ** Waiting for a condition *)

Section Wait.

Context {T : Type}.
Variable T_eq_dec : forall a b : T, {a = b} + {a <> b}.

Fixpoint wait_loop (fuel : nat) (target : T) (get_current : M T)
    (start_time timeout_duration : Q) : M bool :=
  match fuel with
  | O => out_of_fuel
  | S fuel' =>
      within <- check_time_not_exceeded start_time timeout_duration ;;
      if within then
        current <- get_current ;;
        if T_eq_dec target current then ret true
        else
          time_sleep POLLING_TIME ;;
          wait_loop fuel' target get_current start_time timeout_duration
      else ret false
  end.

Definition wait (fuel : nat) (target : T) (get_current : M T)
    (timeout_duration : Q) : M bool :=
  start_time <- time_time ;;
  wait_loop fuel target get_current start_time timeout_duration.

End Wait.

(** ** Download phase *)

Fixpoint download_loop (fuel : nat) (process : nat) (start_time : Q) : M bool :=
  match fuel with
  | O => out_of_fuel
  | S fuel' =>
      connected <- get_connection_status ;;
      if negb connected then
        log ERROR "Internet connection lost during download." ;;
        process_terminate process ;;
        process_wait process ;;
        ret false
      else
        within <- check_download_timeout start_time ;;
        if negb within then
          log ERROR ("Download timed out after " ++ str_of_int MAX_DOWNLOAD_TIME ++ " seconds.") ;;
          process_terminate process ;;
          process_wait process ;;
          ret false
        else
          code <- process_poll process ;;
          if is_not_None code then
            log INFO "Download completed successfully." ;;
            ret true
          else
            time_sleep POLLING_TIME ;;
            download_loop fuel' process start_time
  end.

Definition download_image (fuel : nat) (new_version : Z) : M bool :=
  current <- get_current_state ;;
  if DeviceState_eq_dec current Idle then
    log INFO ("Starting software version " ++ str_of_int new_version ++ " download.") ;;
    set_state Downloading ;;
    process <- Popen ["curl"; "-O"; DOWNLOAD_URL]%string ;;
    start_time <- time_time ;;
    download_loop fuel process start_time
  else ret false.

(** ** Install phase *)

Fixpoint install_loop (fuel : nat) (process : nat) (start_time : Q) : M bool :=
  match fuel with
  | O => out_of_fuel
  | S fuel' =>
      powered <- get_power_status ;;
      if negb (truthy powered) then
        log ERROR "Power loss detected during the upgrade." ;;
        process_terminate process ;;
        process_wait process ;;
        ret false
      else
        within <- check_install_timeout start_time ;;
        if negb within then
          log ERROR ("Upgrade timed out after " ++ str_of_int MAX_UPGRADE_TIME ++ " seconds.") ;;
          process_terminate process ;;
          process_wait process ;;
          ret false
        else
          drain_stdout process ;;
          code <- process_poll process ;;
          if is_not_None code then
            log INFO "Upgrade completed successfully." ;;
            ret true
          else
            time_sleep POLLING_TIME ;;
            install_loop fuel' process start_time
  end.

Definition install_image (fuel : nat) (new_version : Z) : M bool :=
  current <- get_current_state ;;
  if DeviceState_eq_dec current Downloading then
    log INFO ("Starting software update version " ++ str_of_int new_version ++ " installation.") ;;
    version <- get_current_version ;;
    (if (version >? new_version)%Z then set_state Downgrading
     else set_state Upgrading) ;;
    process <- Popen ["sh"; "install.sh"]%string ;;
    start_time <- time_time ;;
    install_loop fuel process start_time
  else ret false.

(** ** Orchestration *)

Definition update (fuel : nat) (new_version : Z) : M bool :=
  transitioned_to_idle <-
    wait DeviceState_eq_dec fuel Idle get_current_state (inject_Z MAX_WAIT_FOR_IDLE_TIME) ;;
  if negb transitioned_to_idle then
    log ERROR "The update could not be performed as the device state is not idle." ;;
    ret false
  else
    version <- get_current_version ;;
    if (version =? new_version)%Z then
      log INFO "The current version and the new version are the same." ;;
      ret false
    else
      download_success <- download_image fuel new_version ;;
      if negb download_success then
        set_last_upgrade_status Failed ;;
        set_state Idle ;;
        ret false
      else
        upgrade_success <- install_image fuel new_version ;;
        if negb upgrade_success then
          set_last_upgrade_status Failed ;;
          set_state Idle ;;
          ret false
        else
          set_last_upgrade_status Success ;;
          set_software_version new_version ;;
          set_state Idle ;;
          log INFO ("Software update to version " ++ str_of_int new_version ++ " complete.") ;;
          ret true.

End Controller.

(** ** The same code with exceptions and blocking reads *)

(** What the code lets escape: [FileNotFoundError] (an [OSError]) out of
    [subprocess.Popen], [UnicodeDecodeError] out of a text-mode [readline]. *)
Inductive Exn : Set :=
| FileNotFoundError
| UnicodeDecodeError.

(** How the output drained by one [readline] loop ends: with the end of the
    file (the loop reads an empty string and stops), never (the pipe stays
    open and the read blocks), or with bytes that do not decode. *)
Inductive StreamEnd : Set :=
| AtEOF
| HeldOpen
| Undecodable.

Record Surroundings : Type := mkSurroundings {
  base : Env;
  (** [subprocess.Popen] for the child started as number [n]: [None] when it
      starts, else what is raised *)
  popen_error_at : nat -> option Exn;
  (** how the lines of [stdout_at base] end, for the drain asking question
      [t] of child [pid] *)
  stdout_end_at : nat -> nat -> StreamEnd
}.

Inductive Outcome (A : Type) : Type :=
| Returned (a : A)
| Raised (e : Exn).

Arguments Returned {A} a.
Arguments Raised {A} e.

(** [None]: the call does not return (no fuel left, or a read that blocks). *)
Definition X (A : Type) : Type := World -> option (Outcome A * World).

Declare Scope exn_scope.
Delimit Scope exn_scope with exn.

Module Fallible.

Definition ret {A} (a : A) : X A := fun w => Some (Returned a, w).

Definition raise {A} (e : Exn) : X A := fun w => Some (Raised e, w).

Definition blocked {A} : X A := fun _ => None.

Definition bind {A B} (c : X A) (k : A -> X B) : X B :=
  fun w => match c w with
           | Some (Returned a, w') => k a w'
           | Some (Raised e, w') => Some (Raised e, w')
           | None => None
           end.

(** A step of the first layer, which returns or runs out of fuel. *)
Definition lift {A} (c : M A) : X A :=
  fun w => match c w with
           | Some (a, w') => Some (Returned a, w')
           | None => None
           end.

Notation "x <- c ;; k" := (bind c (fun x => k))
  (at level 61, c at next level, right associativity) : exn_scope.
Notation "c ;; k" := (bind c (fun _ => k))
  (at level 61, right associativity) : exn_scope.
Local Open Scope exn_scope.

Section Controller.

Variable U : Surroundings.

Definition Popen (command : list string) : X nat :=
  fun w => match popen_error_at U (spawned w) with
           | Some e => raise e w
           | None => lift (Popen command) w
           end.

Definition drain_stdout (pid : nat) : X unit :=
  fun w =>
    (lift (log_lines (stdout_at (base U) (tick w) pid)) ;;
     match stdout_end_at U (tick w) pid with
     | AtEOF => ret tt
     | HeldOpen => blocked
     | Undecodable => raise UnicodeDecodeError
     end) (bump w).

Definition download_image (fuel : nat) (new_version : Z) : X bool :=
  current <- lift get_current_state ;;
  if DeviceState_eq_dec current Idle then
    lift (log INFO ("Starting software version " ++ str_of_int new_version ++ " download.")) ;;
    lift (set_state Downloading) ;;
    process <- Popen ["curl"; "-O"; DOWNLOAD_URL]%string ;;
    start_time <- lift (time_time (base U)) ;;
    lift (download_loop (base U) fuel process start_time)
  else ret false.

Fixpoint install_loop (fuel : nat) (process : nat) (start_time : Q) : X bool :=
  match fuel with
  | O => blocked
  | S fuel' =>
      powered <- lift (get_power_status (base U)) ;;
      if negb (truthy powered) then
        lift (log ERROR "Power loss detected during the upgrade.") ;;
        lift (process_terminate process) ;;
        lift (process_wait process) ;;
        ret false
      else
        within <- lift (check_install_timeout (base U) start_time) ;;
        if negb within then
          lift (log ERROR ("Upgrade timed out after " ++ str_of_int MAX_UPGRADE_TIME
                           ++ " seconds.")) ;;
          lift (process_terminate process) ;;
          lift (process_wait process) ;;
          ret false
        else
          drain_stdout process ;;
          code <- lift (process_poll (base U) process) ;;
          if is_not_None code then
            lift (log INFO "Upgrade completed successfully.") ;;
            ret true
          else
            lift (time_sleep (base U) POLLING_TIME) ;;
            install_loop fuel' process start_time
  end.

Definition install_image (fuel : nat) (new_version : Z) : X bool :=
  current <- lift get_current_state ;;
  if DeviceState_eq_dec current Downloading then
    lift (log INFO ("Starting software update version " ++ str_of_int new_version
                    ++ " installation.")) ;;
    version <- lift get_current_version ;;
    lift (if (version >? new_version)%Z then set_state Downgrading
          else set_state Upgrading) ;;
    process <- Popen ["sh"; "install.sh"]%string ;;
    start_time <- lift (time_time (base U)) ;;
    install_loop fuel process start_time
  else ret false.

Definition update (fuel : nat) (new_version : Z) : X bool :=
  transitioned_to_idle <-
    lift (wait (base U) DeviceState_eq_dec fuel Idle get_current_state
            (inject_Z MAX_WAIT_FOR_IDLE_TIME)) ;;
  if negb transitioned_to_idle then
    lift (log ERROR "The update could not be performed as the device state is not idle.") ;;
    ret false
  else
    version <- lift get_current_version ;;
    if (version =? new_version)%Z then
      lift (log INFO "The current version and the new version are the same.") ;;
      ret false
    else
      download_success <- download_image fuel new_version ;;
      if negb download_success then
        lift (set_last_upgrade_status Failed) ;;
        lift (set_state Idle) ;;
        ret false
      else
        upgrade_success <- install_image fuel new_version ;;
        if negb upgrade_success then
          lift (set_last_upgrade_status Failed) ;;
          lift (set_state Idle) ;;
          ret false
        else
          lift (set_last_upgrade_status Success) ;;
          lift (set_software_version new_version) ;;
          lift (set_state Idle) ;;
          lift (log INFO ("Software update to version " ++ str_of_int new_version
                          ++ " complete.")) ;;
          ret true.

End Controller.

End Fallible.

(** ** Concrete surroundings used as examples *)

(** One second passes between two questions; the network answers 200, the
    battery is plugged, children print nothing and exit with code 0 once
    [done] questions have been asked; no other thread writes. *)
Definition calm_env (done : nat) : Env :=
  {| time_at := fun t => inject_Z (Z.of_nat t);
     http_get_at := fun _ => Some 200%Z;
     sensors_battery_at := fun _ => Some (Some true);
     poll_at := fun t _ => if (done <=? t)%nat then Some 0%Z else None;
     stdout_at := fun _ _ => [];
     foreign_write_at := fun _ => None |}.

(** As [calm_env], but a hundred seconds pass between two questions. *)
Definition slow_env (done : nat) : Env :=
  {| time_at := fun t => inject_Z (100 * Z.of_nat t);
     http_get_at := fun _ => Some 200%Z;
     sensors_battery_at := fun _ => Some (Some true);
     poll_at := fun t _ => if (done <=? t)%nat then Some 0%Z else None;
     stdout_at := fun _ _ => [];
     foreign_write_at := fun _ => None |}.

(** As [calm_env], but every HTTP request raises. *)
Definition offline_env : Env :=
  {| time_at := fun t => inject_Z (Z.of_nat t);
     http_get_at := fun _ => None;
     sensors_battery_at := fun _ => Some (Some true);
     poll_at := fun _ _ => None;
     stdout_at := fun _ _ => [];
     foreign_write_at := fun _ => None |}.

(** As [calm_env], but without a battery sensor. *)
Definition unplugged_env : Env :=
  {| time_at := fun t => inject_Z (Z.of_nat t);
     http_get_at := fun _ => Some 200%Z;
     sensors_battery_at := fun _ => None;
     poll_at := fun _ _ => Some 0%Z;
     stdout_at := fun _ _ => [];
     foreign_write_at := fun _ => None |}.

(** A clock that was set back by an hour after its first reading. *)
Definition set_back_env : Env :=
  {| time_at := fun t => match t with O => 3600 | _ => 0 end;
     http_get_at := fun _ => Some 200%Z;
     sensors_battery_at := fun _ => Some (Some true);
     poll_at := fun _ _ => Some 0%Z;
     stdout_at := fun _ _ => [];
     foreign_write_at := fun _ => None |}.

(** Connectivity lost on a tick where the clock was also set back past the
    bound and the child has also exited. *)
Definition stormy_env : Env :=
  {| time_at := fun t => match t with O => 3600 | _ => 0 end;
     http_get_at := fun _ => None;
     sensors_battery_at := fun _ => Some (Some true);
     poll_at := fun _ _ => Some 0%Z;
     stdout_at := fun _ _ => [];
     foreign_write_at := fun _ => None |}.

(** As [calm_env], but the device is put into Idle by another thread during
    the sleep that asks question [at_tick]. *)
Definition released_env (at_tick : nat) : Env :=
  {| time_at := fun t => inject_Z (Z.of_nat t);
     http_get_at := fun _ => Some 200%Z;
     sensors_battery_at := fun _ => Some (Some true);
     poll_at := fun _ _ => Some 0%Z;
     stdout_at := fun _ _ => [];
     foreign_write_at := fun t => if (t =? at_tick)%nat then Some Idle else None |}.

(** As [calm_env], but another thread writes [Positioning] into the device
    state during the sleep that asks question 6. *)
Definition meddling_env (done : nat) : Env :=
  {| time_at := fun t => inject_Z (Z.of_nat t);
     http_get_at := fun _ => Some 200%Z;
     sensors_battery_at := fun _ => Some (Some true);
     poll_at := fun t _ => if (done <=? t)%nat then Some 0%Z else None;
     stdout_at := fun _ _ => [];
     foreign_write_at := fun t => if (t =? 6)%nat then Some Positioning else None |}.

(** The same surroundings with another child output. *)
Definition with_stdout (E : Env) (out : nat -> nat -> list string) : Env :=
  {| time_at := time_at E;
     http_get_at := http_get_at E;
     sensors_battery_at := sensors_battery_at E;
     poll_at := poll_at E;
     stdout_at := out;
     foreign_write_at := foreign_write_at E |}.

(** Surroundings in which every child starts and every drain reaches the end
    of the output. *)
Definition unhindered (E : Env) : Surroundings :=
  {| base := E;
     popen_error_at := fun _ => None;
     stdout_end_at := fun _ _ => AtEOF |}.

(** Surroundings in which no child can be started. *)
Definition no_executable (E : Env) : Surroundings :=
  {| base := E;
     popen_error_at := fun _ => Some FileNotFoundError;
     stdout_end_at := fun _ _ => AtEOF |}.

(** As [unhindered (calm_env done)], but how the output of every child ends
    is given. *)
Definition output_ending (ending : StreamEnd) (done : nat) : Surroundings :=
  {| base := calm_env done;
     popen_error_at := fun _ => None;
     stdout_end_at := fun _ _ => ending |}.

(** The same surroundings with other lines in the children's output. *)
Definition with_lines (U : Surroundings) (out : nat -> nat -> list string) : Surroundings :=
  {| base := with_stdout (base U) out;
     popen_error_at := popen_error_at U;
     stdout_end_at := stdout_end_at U |}.

Definition world_of (d : Device) : World :=
  {| dev := d; tick := 0; spawned := 0; trace := [] |}.

(** * Vocabulary of the statements *)

(** A clock that never runs backwards. *)
Definition clock_monotone (E : Env) : Prop :=
  forall n m, (n <= m)%nat -> time_at E n <= time_at E m.

(** ** What the phases leave alone

    [frames w w'] : from [w] to [w'] the version, the device type and the
    last upgrade status are untouched, and the trace only grew, by events
    other than status and version writes. *)

Definition quiet_event (e : Event) : Prop :=
  match e with
  | EvSetStatus _ | EvSetVersion _ => False
  | _ => True
  end.

Definition frames (w w' : World) : Prop :=
  software_version (dev w') = software_version (dev w) /\
  device_type (dev w') = device_type (dev w) /\
  last_upgrade_status (dev w') = last_upgrade_status (dev w) /\
  exists evs, trace w' = trace w ++ evs /\ Forall quiet_event evs.

Definition preserves {A} (c : M A) : Prop :=
  forall w a w', c w = Some (a, w') -> frames w w'.

(** ** The ways a run of [update] can end *)

(** The world after the two writes of a failed attempt. *)
Definition after_failure (w : World) : World :=
  {| dev := {| software_version := software_version (dev w);
               device_type := device_type (dev w);
               last_upgrade_status := Failed;
               state := Idle |};
     tick := tick w;
     spawned := spawned w;
     trace := trace w ++ [EvSetStatus Failed; EvSetState Idle] |}.

(** The world after the three writes and the log record of a completed one. *)
Definition after_success (new_version : Z) (w : World) : World :=
  {| dev := {| software_version := new_version;
               device_type := device_type (dev w);
               last_upgrade_status := Success;
               state := Idle |};
     tick := tick w;
     spawned := spawned w;
     trace := trace w ++
       [EvSetStatus Success; EvSetVersion new_version; EvSetState Idle;
        EvLog INFO ("Software update to version " ++ str_of_int new_version
                    ++ " complete.")] |}.

(** The world after a single log record. *)
Definition after_log (lvl : Level) (msg : string) (w : World) : World :=
  {| dev := dev w; tick := tick w; spawned := spawned w;
     trace := trace w ++ [EvLog lvl msg] |}.

(** The world at the first pass of the download loop: the start record, the
    write of [Downloading], the spawn of [curl] and one clock reading. *)
Definition download_started (new_version : Z) (w : World) : World :=
  {| dev := {| software_version := software_version (dev w);
               device_type := device_type (dev w);
               last_upgrade_status := last_upgrade_status (dev w);
               state := Downloading |};
     tick := S (tick w);
     spawned := S (spawned w);
     trace := trace w ++
       [EvLog INFO ("Starting software version " ++ str_of_int new_version
                    ++ " download.");
        EvSetState Downloading;
        EvSpawn (spawned w) ["curl"; "-O"; DOWNLOAD_URL]%string] |}.

(** The world at the first pass of the install loop. *)
Definition install_started (new_version : Z) (w : World) : World :=
  {| dev := {| software_version := software_version (dev w);
               device_type := device_type (dev w);
               last_upgrade_status := last_upgrade_status (dev w);
               state := if (software_version (dev w) >? new_version)%Z
                        then Downgrading else Upgrading |};
     tick := S (tick w);
     spawned := S (spawned w);
     trace := trace w ++
       [EvLog INFO ("Starting software update version " ++ str_of_int new_version
                    ++ " installation.");
        EvSetState (if (software_version (dev w) >? new_version)%Z
                    then Downgrading else Upgrading);
        EvSpawn (spawned w) ["sh"; "install.sh"]%string] |}.

(** The world in which [curl] could not be started: the start record and the
    write of [Downloading] are done, nothing else. *)
Definition download_refused (new_version : Z) (w : World) : World :=
  {| dev := {| software_version := software_version (dev w);
               device_type := device_type (dev w);
               last_upgrade_status := last_upgrade_status (dev w);
               state := Downloading |};
     tick := tick w;
     spawned := spawned w;
     trace := trace w ++
       [EvLog INFO ("Starting software version " ++ str_of_int new_version
                    ++ " download.");
        EvSetState Downloading] |}.

(** The world in which the install script could not be started. *)
Definition install_refused (new_version : Z) (w : World) : World :=
  {| dev := {| software_version := software_version (dev w);
               device_type := device_type (dev w);
               last_upgrade_status := last_upgrade_status (dev w);
               state := if (software_version (dev w) >? new_version)%Z
                        then Downgrading else Upgrading |};
     tick := tick w;
     spawned := spawned w;
     trace := trace w ++
       [EvLog INFO ("Starting software update version " ++ str_of_int new_version
                    ++ " installation.");
        EvSetState (if (software_version (dev w) >? new_version)%Z
                    then Downgrading else Upgrading)] |}.

(** The first step of [update]: the wait for Idle. *)
Definition admission E fuel : M bool :=
  wait E DeviceState_eq_dec fuel Idle get_current_state (inject_Z MAX_WAIT_FOR_IDLE_TIME).

(** [Ending E fuel new_version w b w'] : the five exits of [update], each with
    the results of the steps that lead to it. *)
Inductive Ending E (fuel : nat) (new_version : Z) (w : World) : bool -> World -> Prop :=
| EndNotIdle w1 :
    admission E fuel w = Some (false, w1) ->
    Ending E fuel new_version w false
      (after_log ERROR "The update could not be performed as the device state is not idle." w1)
| EndSameVersion w1 :
    admission E fuel w = Some (true, w1) ->
    software_version (dev w1) = new_version ->
    Ending E fuel new_version w false
      (after_log INFO "The current version and the new version are the same." w1)
| EndDownloadFailed w1 w2 :
    admission E fuel w = Some (true, w1) ->
    software_version (dev w1) <> new_version ->
    download_image E fuel new_version w1 = Some (false, w2) ->
    Ending E fuel new_version w false (after_failure w2)
| EndInstallFailed w1 w2 w3 :
    admission E fuel w = Some (true, w1) ->
    software_version (dev w1) <> new_version ->
    download_image E fuel new_version w1 = Some (true, w2) ->
    install_image E fuel new_version w2 = Some (false, w3) ->
    Ending E fuel new_version w false (after_failure w3)
| EndCommitted w1 w2 w3 :
    admission E fuel w = Some (true, w1) ->
    software_version (dev w1) <> new_version ->
    download_image E fuel new_version w1 = Some (true, w2) ->
    install_image E fuel new_version w2 = Some (true, w3) ->
    Ending E fuel new_version w true (after_success new_version w3).

(** * Properties *)

(** ** Running monadic code *)

Lemma bind_Some {A B} (c : M A) (k : A -> M B) w b w' :
  bind c k w = Some (b, w') ->
  exists a w1, c w = Some (a, w1) /\ k a w1 = Some (b, w').
Proof.
  unfold bind. destruct (c w) as [[a w1]|] eqn:Hc; [|discriminate].
  intros Hk. exists a, w1. split; [reflexivity|exact Hk].
Qed.

Lemma bind_run {A B} (c : M A) (k : A -> M B) w a w1 :
  c w = Some (a, w1) -> bind c k w = k a w1.
Proof. unfold bind. intros ->. reflexivity. Qed.

Arguments bind_run {A B c} k {w a w1} _.
Arguments bind_Some {A B c k w b w'} _.

Lemma Qltb_lt x y : Qltb x y = true <-> x < y.
Proof. unfold Qltb, Qlt. apply Z.ltb_lt. Qed.

(** ** The timeout guard as the code computes it *)

Lemma check_time_not_exceeded_run E start_time duration w :
  check_time_not_exceeded E start_time duration w
  = Some (Qltb (start_time - time_at E (tick w)) duration, bump w).
Proof.
  unfold check_time_not_exceeded, time_time, ask, bind.
  destruct (Qltb _ _); reflexivity.
Qed.

(** With such a clock the guard lets every positive bound pass, however much
    time has gone by since [start_time] was read. *)
Lemma check_time_not_exceeded_always E k duration w :
  clock_monotone E -> (k <= tick w)%nat -> 0 < duration ->
  check_time_not_exceeded E (time_at E k) duration w = Some (true, bump w).
Proof.
  intros Hmono Hk Hd. rewrite check_time_not_exceeded_run.
  replace (Qltb _ _) with true; [reflexivity|].
  symmetry. apply Qltb_lt.
  specialize (Hmono k (tick w) Hk). lra.
Qed.

Lemma calm_env_monotone done : clock_monotone (calm_env done).
Proof.
  intros n m H. simpl. rewrite <- Zle_Qle. lia.
Qed.

Lemma slow_env_monotone done : clock_monotone (slow_env done).
Proof.
  intros n m H. cbn [time_at slow_env]. rewrite <- Zle_Qle. lia.
Qed.

Lemma frames_refl w : frames w w.
Proof.
  repeat split. exists []. split; [now rewrite app_nil_r|constructor].
Qed.

Lemma frames_trans w1 w2 w3 : frames w1 w2 -> frames w2 w3 -> frames w1 w3.
Proof.
  intros (Hv & Ht & Hs & evs & He & Hq) (Hv' & Ht' & Hs' & evs' & He' & Hq').
  repeat split; try congruence.
  exists (evs ++ evs'). split.
  - rewrite He', He, app_assoc. reflexivity.
  - apply Forall_app. split; assumption.
Qed.

Lemma preserves_ret {A} (a : A) : preserves (ret a).
Proof. intros w a' w' H. injection H as _ <-. apply frames_refl. Qed.

Lemma preserves_bind {A B} (c : M A) (k : A -> M B) :
  preserves c -> (forall a, preserves (k a)) -> preserves (bind c k).
Proof.
  intros Hc Hk w b w' H.
  apply bind_Some in H. destruct H as (a & w1 & H1 & H2).
  eapply frames_trans; [eapply Hc|eapply Hk]; eassumption.
Qed.

Lemma preserves_out_of_fuel {A} : preserves (@out_of_fuel A).
Proof. intros w a w' H. discriminate. Qed.

Lemma preserves_emit e : quiet_event e -> preserves (emit e).
Proof.
  intros He w a w' H. injection H as _ <-.
  repeat split. exists [e]. split; [reflexivity|]. constructor; [exact He|constructor].
Qed.

Lemma preserves_ask {A} (oracle : nat -> A) : preserves (ask oracle).
Proof.
  intros w a w' H. injection H as _ <-. repeat split.
  exists []. split; [simpl; now rewrite app_nil_r|constructor].
Qed.

Lemma preserves_log lvl msg : preserves (log lvl msg).
Proof.
  unfold log. destruct (isEnabledFor lvl).
  - apply preserves_emit. exact I.
  - apply preserves_ret.
Qed.

Lemma preserves_set_state s : preserves (set_state s).
Proof.
  intros w a w' H. injection H as _ <-.
  repeat split. exists [EvSetState s]. split; [reflexivity|]. repeat constructor.
Qed.

Lemma preserves_get_current_state : preserves get_current_state.
Proof. intros w a w' H. injection H as _ <-. apply frames_refl. Qed.

Lemma preserves_get_current_version : preserves get_current_version.
Proof. intros w a w' H. injection H as _ <-. apply frames_refl. Qed.

Lemma preserves_Popen command : preserves (Popen command).
Proof.
  intros w a w' H. injection H as _ <-.
  repeat split. exists [EvSpawn (spawned w) command]. split; [reflexivity|].
  repeat constructor.
Qed.

Lemma preserves_time_sleep E seconds : preserves (time_sleep E seconds).
Proof.
  unfold time_sleep.
  apply preserves_bind; [apply preserves_emit; exact I|intros _].
  apply preserves_bind; [apply preserves_ask|intros [s|]].
  - intros w a w' H. injection H as _ <-. repeat split.
    exists []. split; [simpl; now rewrite app_nil_r|constructor].
  - apply preserves_ret.
Qed.

Lemma preserves_log_lines lines : preserves (log_lines lines).
Proof.
  induction lines as [|output rest IH]; simpl.
  - apply preserves_ret.
  - destruct (String.eqb output ""); [apply preserves_ret|].
    apply preserves_bind; [apply preserves_log|intros _; exact IH].
Qed.

Create HintDb frame_db.

#[export] Hint Resolve preserves_ret preserves_out_of_fuel preserves_ask
  preserves_log preserves_set_state preserves_get_current_state
  preserves_get_current_version preserves_Popen preserves_time_sleep
  preserves_log_lines : frame_db.

#[export] Hint Extern 1 (preserves (emit _)) =>
  (apply preserves_emit; exact I) : frame_db.

(** Walks down a monadic term, splitting on every test it meets. *)
Ltac frame_step :=
  match goal with
  | |- preserves (bind _ _) => apply preserves_bind; [|intros ?]
  | |- preserves (if ?b then _ else _) => destruct b
  | |- preserves (match ?x with _ => _ end) => destruct x
  | |- preserves _ => solve [auto with frame_db]
  end.

Ltac frame := repeat frame_step.

Lemma preserves_check_time_not_exceeded E start_time duration :
  preserves (check_time_not_exceeded E start_time duration).
Proof. unfold check_time_not_exceeded, time_time. frame. Qed.

Lemma preserves_get_connection_status E : preserves (get_connection_status E).
Proof. unfold get_connection_status. frame. Qed.

Lemma preserves_get_power_status E : preserves (get_power_status E).
Proof. unfold get_power_status. frame. Qed.

#[export] Hint Resolve preserves_check_time_not_exceeded
  preserves_get_connection_status preserves_get_power_status : frame_db.

Lemma preserves_wait_loop E fuel target get_current start_time timeout_duration :
  preserves get_current ->
  preserves (wait_loop E DeviceState_eq_dec fuel target get_current
               start_time timeout_duration).
Proof.
  intros Hg. induction fuel as [|fuel IH]; simpl; frame.
Qed.

Lemma preserves_wait E fuel target get_current timeout_duration :
  preserves get_current ->
  preserves (wait E DeviceState_eq_dec fuel target get_current timeout_duration).
Proof.
  intros Hg. unfold wait, time_time.
  apply preserves_bind; [auto with frame_db|intros start_time].
  apply preserves_wait_loop. exact Hg.
Qed.

Lemma preserves_download_loop E fuel process start_time :
  preserves (download_loop E fuel process start_time).
Proof.
  induction fuel as [|fuel IH]; simpl;
    unfold check_download_timeout, process_terminate, process_wait, process_poll;
    frame.
Qed.

Lemma preserves_download_image E fuel new_version :
  preserves (download_image E fuel new_version).
Proof.
  unfold download_image, time_time. pose proof (preserves_download_loop E fuel).
  frame.
Qed.

Lemma preserves_install_loop E fuel process start_time :
  preserves (install_loop E fuel process start_time).
Proof.
  induction fuel as [|fuel IH]; simpl;
    unfold check_install_timeout, process_terminate, process_wait, process_poll,
      drain_stdout;
    frame.
Qed.

Lemma preserves_install_image E fuel new_version :
  preserves (install_image E fuel new_version).
Proof.
  unfold install_image, time_time. pose proof (preserves_install_loop E fuel).
  frame.
Qed.

(** ** The timeout guard (C1) *)

(** C1 (defect in the code).  The guard is documented to return [True] only
    while the elapsed time [now - start_time] is below [duration].  Started at
    clock reading 0 and asked at reading 1000 with the download bound of 300
    seconds, under a clock that never runs backwards, it returns [True]
    although 1000 seconds have elapsed: the code compares
    [start_time - now], not [now - start_time], with the bound. *)
Theorem check_time_not_exceeded_past_bound :
  let E := slow_env 0 in
  let w := {| dev := Device_init 2 None; tick := 10; spawned := 0; trace := [] |} in
  let start_time := time_at E 0 in
  let now := time_at E (tick w) in
  let duration := inject_Z MAX_DOWNLOAD_TIME in
  clock_monotone E /\
  0 < duration /\
  ~ (now - start_time < duration) /\
  check_time_not_exceeded E start_time duration w = Some (true, bump w).
Proof.
  cbv zeta. split; [apply slow_env_monotone|]. split; [|split].
  - reflexivity.
  - intros H. apply Qltb_lt in H. vm_compute in H. discriminate.
  - rewrite check_time_not_exceeded_run. reflexivity.
Qed.

(** ** A request for the version already installed (C2) *)

Lemma wait_already_there E fuel w timeout_duration :
  wait E DeviceState_eq_dec (S fuel) (state (dev w)) get_current_state timeout_duration w
  = Some (Qltb (time_at E (tick w) - time_at E (S (tick w))) timeout_duration,
          bump (bump w)).
Proof.
  unfold wait, time_time. unfold bind at 1. unfold ask at 1.
  cbn [wait_loop]. unfold bind at 1. rewrite check_time_not_exceeded_run.
  cbn [tick bump].
  destruct (Qltb _ _); [|reflexivity].
  unfold bind, get_current_state. cbn [dev bump].
  destruct (DeviceState_eq_dec (state (dev w)) (state (dev w))) as [_|Hne];
    [reflexivity|contradiction].
Qed.

(** C2 (defect in the code).  A request for the version already installed is
    to end with [last_upgrade_status = No_Update], as the test of this path
    and the description of [UpgradeStatus] as the outcome of an attempt say,
    and as the other paths of [update] record theirs.  A device at version 2
    whose request for version 4 failed for lack of connectivity is Idle with
    [last_upgrade_status = Failed]; asked next for version 2, it returns
    [False] and still shows [Failed]: the same-version path writes no
    status at all. *)
Lemma update_same_version_keeps_Failed :
  exists w0 w',
    update offline_env 1 4 (world_of (Device_init 2 None)) = Some (false, w0) /\
    state (dev w0) = Idle /\
    software_version (dev w0) = 2%Z /\
    update offline_env 1 2 w0 = Some (false, w') /\
    state (dev w') = Idle /\
    software_version (dev w') = 2%Z /\
    last_upgrade_status (dev w') = Failed /\
    last_upgrade_status (dev w') <> No_Update.
Proof.
  eexists. eexists.
  split; [vm_compute; reflexivity|].
  split; [reflexivity|]. split; [reflexivity|].
  split; [vm_compute; reflexivity|].
  cbn. repeat split; discriminate.
Qed.

(** What that path does instead: on an Idle device it returns [False] on
    the first pass of the wait loop and writes no field, so the status is
    whatever the previous attempt left. *)
Lemma update_same_version_writes_nothing E fuel new_version w :
  state (dev w) = Idle ->
  software_version (dev w) = new_version ->
  exists w',
    update E (S fuel) new_version w = Some (false, w') /\
    dev w' = dev w /\
    tick w' = S (S (tick w)) /\
    spawned w' = spawned w /\
    exists lvl msg, trace w' = trace w ++ [EvLog lvl msg].
Proof.
  intros Hidle Hver. unfold update.
  pose proof (wait_already_there E fuel w (inject_Z MAX_WAIT_FOR_IDLE_TIME)) as Hw.
  rewrite Hidle in Hw. rewrite (bind_run _ Hw).
  destruct (Qltb _ _); cbn [negb].
  - unfold bind at 1. unfold get_current_version at 1. cbn [dev bump].
    rewrite Hver, Z.eqb_refl.
    eexists. split; [reflexivity|]. cbn. repeat split. eauto.
  - eexists. split; [reflexivity|]. cbn. repeat split. eauto.
Qed.

(** ** The bounds never fire (C3, C4) *)

Lemma get_connection_status_run E w :
  get_connection_status E w
  = Some (match http_get_at E (tick w) with
          | Some status_code => (status_code =? 200)%Z
          | None => false
          end, bump w).
Proof.
  unfold get_connection_status, bind, ask.
  destruct (http_get_at E (tick w)); reflexivity.
Qed.

Lemma time_sleep_run E seconds w :
  exists w',
    time_sleep E seconds w = Some (tt, w') /\
    tick w' = S (tick w) /\
    spawned w' = spawned w /\
    trace w' = trace w ++ [EvSleep seconds] /\
    state (dev w') = match foreign_write_at E (tick w) with
                     | Some s => s
                     | None => state (dev w)
                     end.
Proof.
  unfold time_sleep, bind, emit, ask. cbn [tick bump].
  destruct (foreign_write_at E (tick w)); eexists; (split; [reflexivity|]);
    cbn; repeat split.
Qed.

(** Under a clock that never runs backwards the wait loop cannot give up:
    while nobody makes the device Idle, it polls for as long as it has fuel. *)
Lemma wait_loop_never_gives_up E :
  clock_monotone E ->
  (forall t, foreign_write_at E t <> Some Idle) ->
  forall fuel k w,
    (k <= tick w)%nat ->
    state (dev w) <> Idle ->
    wait_loop E DeviceState_eq_dec fuel Idle get_current_state
      (time_at E k) (inject_Z MAX_WAIT_FOR_IDLE_TIME) w = None.
Proof.
  intros Hmono Hforeign. induction fuel as [|fuel IH]; intros k w Hk Hstate.
  - reflexivity.
  - cbn [wait_loop].
    rewrite (bind_run _ (check_time_not_exceeded_always E k (inject_Z MAX_WAIT_FOR_IDLE_TIME) w
                           Hmono Hk eq_refl)).
    unfold bind at 1. unfold get_current_state at 1. cbn [dev bump].
    destruct (DeviceState_eq_dec Idle (state (dev w))) as [Heq|_];
      [congruence|].
    destruct (time_sleep_run E POLLING_TIME (bump w)) as (w1 & Hs & Ht & _ & _ & Hst).
    rewrite (bind_run _ Hs).
    apply IH.
    + rewrite Ht. cbn [tick bump]. lia.
    + rewrite Hst. cbn [tick bump dev].
      specialize (Hforeign (S (tick w))).
      destruct (foreign_write_at E (S (tick w))); congruence.
Qed.

Lemma update_never_accepted E :
  clock_monotone E ->
  (forall t, foreign_write_at E t <> Some Idle) ->
  forall fuel new_version w,
    state (dev w) <> Idle ->
    update E fuel new_version w = None.
Proof.
  intros Hmono Hforeign fuel new_version w Hstate.
  unfold update, wait, time_time.
  unfold bind at 1. unfold bind at 1. unfold ask at 1.
  rewrite (wait_loop_never_gives_up E Hmono Hforeign); [reflexivity| |exact Hstate].
  cbn [tick bump]. lia.
Qed.

(** C4 (defect in the code).  [wait] is documented to return [False] once the
    timeout has passed.  A device parked in [Positioning] that nobody makes
    Idle, under a clock advancing one second per question: the update never
    returns, whatever the fuel; the wait loop does not stop after
    [MAX_WAIT_FOR_IDLE_TIME].  Same defect as C1. *)
Theorem update_waits_forever :
  forall fuel,
    update (calm_env 0) fuel 4 (world_of (mkDevice 2 None No_Update Positioning)) = None.
Proof.
  intros fuel. apply update_never_accepted.
  - apply calm_env_monotone.
  - intros t. discriminate.
  - discriminate.
Qed.

(** Under a clock that never runs backwards and a network that always
    answers 200, the download loop never fails. *)
Lemma download_loop_never_times_out E :
  clock_monotone E ->
  (forall t, http_get_at E t = Some 200%Z) ->
  forall fuel process k w w',
    (k <= tick w)%nat ->
    download_loop E fuel process (time_at E k) w <> Some (false, w').
Proof.
  intros Hmono Hnet. induction fuel as [|fuel IH]; intros process k w w' Hk.
  - discriminate.
  - cbn [download_loop].
    rewrite (bind_run _ (get_connection_status_run E w)).
    rewrite Hnet. cbn [Z.eqb Pos.eqb negb].
    unfold check_download_timeout.
    assert (Hk' : (k <= tick (bump w))%nat) by (cbn [tick bump]; lia).
    rewrite (bind_run _ (check_time_not_exceeded_always E k (inject_Z MAX_DOWNLOAD_TIME)
                           (bump w) Hmono Hk' eq_refl)).
    cbn [negb]. unfold bind at 1. unfold process_poll at 1. unfold ask at 1.
    destruct (poll_at E _ process); cbn [is_not_None].
    + discriminate.
    + destruct (time_sleep_run E POLLING_TIME (bump (bump (bump w))))
        as (w1 & Hs & Ht & _).
      rewrite (bind_run _ Hs). apply IH.
      rewrite Ht. cbn [tick bump]. lia.
Qed.

(** C3 (defect in the code).  Connectivity stays up, a hundred seconds pass
    between two questions and the child exits after ten of them.  The clock is
    read at 0 when the phase starts and at 600 on the second tick, where the
    child is still running: 600 seconds exceed [MAX_DOWNLOAD_TIME], yet the
    loop goes on, nothing is terminated and the phase returns [True] on the
    third tick.  Same defect as C1. *)
Theorem download_image_ignores_MAX_DOWNLOAD_TIME :
  let E := slow_env 10 in
  let start_time := time_at E 0 in
  let second_check := time_at E 6 in
  clock_monotone E /\
  inject_Z MAX_DOWNLOAD_TIME < second_check - start_time /\
  http_get_at E 5 = Some 200%Z /\
  poll_at E 7 0 = None /\
  exists w',
    download_image E 3 4 (world_of (Device_init 2 None)) = Some (true, w') /\
    tick w' = 12%nat /\
    trace w' =
      [EvLog INFO "Starting software version 4 download.";
       EvSetState Downloading;
       EvSpawn 0 ["curl"; "-O"; DOWNLOAD_URL]%string;
       EvSleep POLLING_TIME;
       EvSleep POLLING_TIME;
       EvLog INFO "Download completed successfully."].
Proof.
  cbv zeta. split; [apply slow_env_monotone|].
  split; [reflexivity|]. split; [reflexivity|]. split; [reflexivity|].
  eexists. split; [vm_compute; reflexivity|]. split; reflexivity.
Qed.

(** ** Entering the phases (C9, C5) *)

(** C9.  Called while the device is not Idle, the download phase returns
    [False] at once and leaves the world as it found it: no field written, no
    process started, nothing logged, no fuel needed.  Called while Idle, it
    logs the start, then writes [state = Downloading], then starts the
    [curl] command, reads the clock and enters its polling loop. *)
Theorem download_image_entry E fuel new_version w :
  (state (dev w) <> Idle ->
     download_image E fuel new_version w = Some (false, w)) /\
  (state (dev w) = Idle ->
     exists w1,
       download_image E fuel new_version w
       = download_loop E fuel (spawned w) (time_at E (tick w)) w1 /\
       state (dev w1) = Downloading /\
       software_version (dev w1) = software_version (dev w) /\
       last_upgrade_status (dev w1) = last_upgrade_status (dev w) /\
       spawned w1 = S (spawned w) /\
       trace w1 = trace w ++
         [EvLog INFO ("Starting software version " ++ str_of_int new_version ++ " download.");
          EvSetState Downloading;
          EvSpawn (spawned w) ["curl"; "-O"; DOWNLOAD_URL]%string]).
Proof.
  split; intros Hstate; unfold download_image; unfold bind at 1;
    unfold get_current_state at 1;
    destruct (DeviceState_eq_dec (state (dev w)) Idle) as [Heq|Hne];
    try contradiction.
  - reflexivity.
  - eexists. split; [reflexivity|].
    cbn [dev spawned trace tick bump set_dev state software_version
         last_upgrade_status].
    repeat split. rewrite <- !app_assoc. reflexivity.
Qed.

Lemma download_image_entry_witness :
  let E := calm_env 0 in
  let busy := world_of (mkDevice 2 None No_Update Positioning) in
  let idle := world_of (Device_init 2 None) in
  (state (dev busy) <> Idle /\ download_image E 0 4 busy = Some (false, busy)) /\
  (state (dev idle) = Idle /\
   exists w1,
     download_image E 1 4 idle = download_loop E 1 (spawned idle) (time_at E (tick idle)) w1 /\
     state (dev w1) = Downloading).
Proof.
  cbv zeta. split.
  - split; [discriminate|].
    apply (download_image_entry (calm_env 0) 0 4
             (world_of (mkDevice 2 None No_Update Positioning))).
    discriminate.
  - split; [reflexivity|].
    destruct (proj2 (download_image_entry (calm_env 0) 1 4
                       (world_of (Device_init 2 None))) eq_refl)
      as (w1 & Hrun & Hst & _).
    exists w1. split; assumption.
Defined.

(** C5.  An install phase that is entered (the device is in [Downloading])
    logs the start, then writes the direction into [state], then starts the
    install script and enters its polling loop; the state written is
    [Upgrading] exactly when the target version is at least the current one,
    and [Downgrading] exactly when it is below it. *)
Theorem install_image_direction E fuel new_version w :
  state (dev w) = Downloading ->
  exists w1,
    install_image E fuel new_version w
    = install_loop E fuel (spawned w) (time_at E (tick w)) w1 /\
    trace w1 = trace w ++
      [EvLog INFO ("Starting software update version " ++ str_of_int new_version
                   ++ " installation.");
       EvSetState (state (dev w1));
       EvSpawn (spawned w) ["sh"; "install.sh"]%string] /\
    (state (dev w1) = Upgrading <-> (new_version >= software_version (dev w))%Z) /\
    (state (dev w1) = Downgrading <-> (new_version < software_version (dev w))%Z).
Proof.
  intros Hstate. unfold install_image. unfold bind at 1.
  unfold get_current_state at 1. rewrite Hstate.
  destruct (DeviceState_eq_dec Downloading Downloading) as [_|Hne];
    [|contradiction].
  unfold bind at 1. unfold log at 1.
  cbn [isEnabledFor levelno logger_level Z.leb Z.compare Pos.compare Pos.compare_cont emit].
  unfold bind at 1. unfold get_current_version at 1. cbn [dev].
  destruct (software_version (dev w) >? new_version)%Z eqn:Hcmp.
  - eexists. split; [reflexivity|].
    cbn [dev spawned trace tick bump set_dev state software_version].
    split; [rewrite <- !app_assoc; reflexivity|].
    apply Z.gtb_lt in Hcmp. split; split; intros H; try discriminate; try lia.
    reflexivity.
  - eexists. split; [reflexivity|].
    cbn [dev spawned trace tick bump set_dev state software_version].
    split; [rewrite <- !app_assoc; reflexivity|].
    assert (Hle : (software_version (dev w) <= new_version)%Z).
    { destruct (Z.gtb_spec (software_version (dev w)) new_version); [discriminate|lia]. }
    split; split; intros H; try discriminate; try lia.
    reflexivity.
Qed.

Lemma install_image_direction_witness :
  let E := calm_env 0 in
  let w := world_of (mkDevice 2 None No_Update Downloading) in
  state (dev w) = Downloading /\
  exists w1,
    install_image E 1 1 w = install_loop E 1 (spawned w) (time_at E (tick w)) w1 /\
    state (dev w1) = Downgrading.
Proof.
  cbv zeta. split; [reflexivity|].
  destruct (install_image_direction (calm_env 0) 1 1
              (world_of (mkDevice 2 None No_Update Downloading)) eq_refl)
    as (w1 & Hrun & _ & _ & Hdown).
  exists w1. split; [exact Hrun|]. apply Hdown. reflexivity.
Defined.

(** ** One tick of the download loop (C8) *)

(** C8.  A tick of the download loop asks three questions in a fixed order:
    the connectivity probe, then the clock for the timeout guard, then the
    child's exit status.  When the probe answers no, the tick logs the lost
    connection, terminates and reaps the child and returns [False] after that
    single question, whatever the clock and the child would have answered;
    when the probe answers yes and the guard fails, it reports the timeout
    after two questions, whatever the child would have answered; only then
    does an exited child end the phase with [True]. *)
Theorem download_loop_check_order E fuel process start_time w :
  let connected :=
    match http_get_at E (tick w) with
    | Some status_code => (status_code =? 200)%Z
    | None => false
    end in
  let within :=
    Qltb (start_time - time_at E (S (tick w))) (inject_Z MAX_DOWNLOAD_TIME) in
  let exited := is_not_None (poll_at E (S (S (tick w))) process) in
  (connected = false ->
     download_loop E (S fuel) process start_time w
     = Some (false,
             {| dev := dev w; tick := S (tick w); spawned := spawned w;
                trace := trace w ++
                  [EvLog ERROR "Internet connection lost during download.";
                   EvTerminate process; EvJoin process] |})) /\
  (connected = true -> within = false ->
     download_loop E (S fuel) process start_time w
     = Some (false,
             {| dev := dev w; tick := S (S (tick w)); spawned := spawned w;
                trace := trace w ++
                  [EvLog ERROR "Download timed out after 300 seconds.";
                   EvTerminate process; EvJoin process] |})) /\
  (connected = true -> within = true -> exited = true ->
     download_loop E (S fuel) process start_time w
     = Some (true,
             {| dev := dev w; tick := S (S (S (tick w))); spawned := spawned w;
                trace := trace w ++
                  [EvLog INFO "Download completed successfully."] |})) /\
  (connected = true -> within = true -> exited = false ->
     exists w1,
       time_sleep E POLLING_TIME (bump (bump (bump w))) = Some (tt, w1) /\
       download_loop E (S fuel) process start_time w
       = download_loop E fuel process start_time w1).
Proof.
  cbv zeta. cbn [download_loop].
  rewrite (bind_run _ (get_connection_status_run E w)).
  unfold check_download_timeout.
  repeat split.
  - intros ->. cbn [negb]. cbn. rewrite <- !app_assoc. reflexivity.
  - intros -> Hwithin. cbn [negb].
    rewrite (bind_run _ (check_time_not_exceeded_run E _ _ (bump w))).
    cbn [tick bump]. rewrite Hwithin. cbn [negb]. cbn.
    rewrite <- !app_assoc. reflexivity.
  - intros -> Hwithin Hexited. cbn [negb].
    rewrite (bind_run _ (check_time_not_exceeded_run E _ _ (bump w))).
    cbn [tick bump]. rewrite Hwithin. cbn [negb].
    unfold bind at 1. unfold process_poll at 1. unfold ask at 1.
    cbn [tick bump]. rewrite Hexited. reflexivity.
  - intros -> Hwithin Hexited. cbn [negb].
    rewrite (bind_run _ (check_time_not_exceeded_run E _ _ (bump w))).
    cbn [tick bump]. rewrite Hwithin. cbn [negb].
    unfold bind at 1. unfold process_poll at 1. unfold ask at 1.
    cbn [tick bump]. rewrite Hexited.
    destruct (time_sleep_run E POLLING_TIME (bump (bump (bump w)))) as (w1 & Hs & _).
    exists w1. split; [exact Hs|]. rewrite (bind_run _ Hs). reflexivity.
Qed.

Lemma download_loop_check_order_witness :
  let w := {| dev := mkDevice 2 None No_Update Downloading;
              tick := 1; spawned := 1; trace := [] |} in
  (http_get_at stormy_env 1 = None /\
   Qltb (3600 - time_at stormy_env 2) (inject_Z MAX_DOWNLOAD_TIME) = false /\
   is_not_None (poll_at stormy_env 3 0) = true /\
   download_loop stormy_env 1 0 3600 w
   = Some (false,
           {| dev := dev w; tick := 2; spawned := 1;
              trace := [EvLog ERROR "Internet connection lost during download.";
                        EvTerminate 0; EvJoin 0] |})) /\
  (http_get_at set_back_env 1 = Some 200%Z /\
   is_not_None (poll_at set_back_env 3 0) = true /\
   download_loop set_back_env 1 0 3600 w
   = Some (false,
           {| dev := dev w; tick := 3; spawned := 1;
              trace := [EvLog ERROR "Download timed out after 300 seconds.";
                        EvTerminate 0; EvJoin 0] |})) /\
  download_loop (calm_env 0) 1 0 0 w
  = Some (true,
          {| dev := dev w; tick := 4; spawned := 1;
             trace := [EvLog INFO "Download completed successfully."] |}) /\
  exists w1,
    time_sleep (calm_env 9) POLLING_TIME (bump (bump (bump w))) = Some (tt, w1) /\
    download_loop (calm_env 9) 1 0 0 w = download_loop (calm_env 9) 0 0 0 w1.
Proof.
  cbv zeta. split; [|split; [|split]].
  - split; [reflexivity|]. split; [reflexivity|]. split; [reflexivity|].
    apply (proj1 (download_loop_check_order stormy_env 0 0 3600
                    {| dev := mkDevice 2 None No_Update Downloading;
                       tick := 1; spawned := 1; trace := [] |})).
    reflexivity.
  - split; [reflexivity|]. split; [reflexivity|].
    apply (proj1 (proj2 (download_loop_check_order set_back_env 0 0 3600
                    {| dev := mkDevice 2 None No_Update Downloading;
                       tick := 1; spawned := 1; trace := [] |})));
      reflexivity.
  - apply (proj1 (proj2 (proj2 (download_loop_check_order (calm_env 0) 0 0 0
                    {| dev := mkDevice 2 None No_Update Downloading;
                       tick := 1; spawned := 1; trace := [] |}))));
      reflexivity.
  - apply (proj2 (proj2 (proj2 (download_loop_check_order (calm_env 9) 0 0 0
                    {| dev := mkDevice 2 None No_Update Downloading;
                       tick := 1; spawned := 1; trace := [] |}))));
      reflexivity.
Defined.

(** ** How a run of [update] ends (C7, C10) *)

Lemma after_failure_run w :
  (set_last_upgrade_status Failed ;; set_state Idle ;; ret false) w
  = Some (false, after_failure w).
Proof.
  unfold after_failure. cbn. rewrite <- !app_assoc. reflexivity.
Qed.

Lemma after_success_run new_version w :
  (set_last_upgrade_status Success ;;
   set_software_version new_version ;;
   set_state Idle ;;
   log INFO ("Software update to version " ++ str_of_int new_version ++ " complete.") ;;
   ret true) w
  = Some (true, after_success new_version w).
Proof.
  unfold after_success, bind, set_last_upgrade_status, set_software_version,
    set_state, log, emit, set_dev, ret.
  cbn [isEnabledFor levelno logger_level Z.leb Z.compare Pos.compare
       Pos.compare_cont dev tick spawned trace software_version device_type
       last_upgrade_status state].
  rewrite <- !app_assoc. reflexivity.
Qed.

(** Every run of [update] that returns ends in one of the five ways, and each
    of the five is a run that returns. *)
Lemma update_Ending E fuel new_version w b w' :
  update E fuel new_version w = Some (b, w') <-> Ending E fuel new_version w b w'.
Proof.
  unfold update. fold (admission E fuel). split.
  - intros H. apply bind_Some in H. destruct H as ([|] & w1 & Hwait & H); cbn [negb] in H.
    + unfold bind at 1 in H. unfold get_current_version at 1 in H.
      destruct (Z.eqb_spec (software_version (dev w1)) new_version) as [Heq|Hne].
      * injection H as <- <-. eapply EndSameVersion; eassumption.
      * apply bind_Some in H. destruct H as ([|] & w2 & Hdl & H); cbn [negb] in H.
        -- apply bind_Some in H. destruct H as ([|] & w3 & Hin & H); cbn [negb] in H.
           ++ rewrite after_success_run in H. injection H as <- <-.
              eapply EndCommitted; eassumption.
           ++ rewrite after_failure_run in H. injection H as <- <-.
              eapply EndInstallFailed; eassumption.
        -- rewrite after_failure_run in H. injection H as <- <-.
           eapply EndDownloadFailed; eassumption.
    + injection H as <- <-. eapply EndNotIdle; eassumption.
  - intros H. destruct H as [w1 Hw|w1 Hw Hv|w1 w2 Hw Hv Hd|w1 w2 w3 Hw Hv Hd Hi
                             |w1 w2 w3 Hw Hv Hd Hi];
      rewrite (bind_run _ Hw); cbn [negb]; try reflexivity;
      unfold bind at 1; unfold get_current_version at 1.
    + rewrite Hv, Z.eqb_refl. reflexivity.
    + destruct (Z.eqb_spec (software_version (dev w1)) new_version); [contradiction|].
      rewrite (bind_run _ Hd). cbn [negb]. apply after_failure_run.
    + destruct (Z.eqb_spec (software_version (dev w1)) new_version); [contradiction|].
      rewrite (bind_run _ Hd). cbn [negb]. rewrite (bind_run _ Hi). cbn [negb].
      apply after_failure_run.
    + destruct (Z.eqb_spec (software_version (dev w1)) new_version); [contradiction|].
      rewrite (bind_run _ Hd). cbn [negb]. rewrite (bind_run _ Hi). cbn [negb].
      apply after_success_run.
Qed.

Lemma admission_frames E fuel w t w1 :
  admission E fuel w = Some (t, w1) -> frames w w1.
Proof.
  apply preserves_wait. apply preserves_get_current_state.
Qed.

Lemma quiet_no_commit evs r : Forall quiet_event evs -> ~ In (EvSetStatus r) evs.
Proof.
  intros Hq Hin. rewrite Forall_forall in Hq. exact (Hq _ Hin).
Qed.

(** C7.  A run that passed the wait for Idle, asked for a different version and saw both
    phases return [True] returns [True]; its last effects are, in this order,
    the writes [last_upgrade_status = Success], [software_version =
    new_version] and [state = Idle], followed by one log record, so all three
    fields hold their final values when the run returns. *)
Theorem update_success_commits E fuel new_version w w1 w2 w3 :
  admission E fuel w = Some (true, w1) ->
  software_version (dev w1) <> new_version ->
  download_image E fuel new_version w1 = Some (true, w2) ->
  install_image E fuel new_version w2 = Some (true, w3) ->
  exists w',
    update E fuel new_version w = Some (true, w') /\
    last_upgrade_status (dev w') = Success /\
    software_version (dev w') = new_version /\
    state (dev w') = Idle /\
    trace w' = trace w3 ++
      [EvSetStatus Success; EvSetVersion new_version; EvSetState Idle;
       EvLog INFO ("Software update to version " ++ str_of_int new_version
                   ++ " complete.")].
Proof.
  intros Hw Hv Hd Hi. exists (after_success new_version w3). split.
  - apply update_Ending. eapply EndCommitted; eassumption.
  - cbn. repeat split.
Qed.

(** C10.  For a run of [update] that returns, the value returned is [True]
    exactly when the run passed the wait for Idle, asked for a different version, saw
    both phases return [True] and ended with the success commit;
    equivalently, exactly when the run wrote [last_upgrade_status = Success].
    A request for the version already installed returns [False] and leaves
    the last upgrade status as it was: no failure is recorded, and the caller
    gets the same [False] as for a failed attempt. *)
Theorem update_True_iff_committed E fuel new_version w b w' :
  update E fuel new_version w = Some (b, w') ->
  (b = true <->
     exists w1 w2 w3,
       admission E fuel w = Some (true, w1) /\
       software_version (dev w1) <> new_version /\
       download_image E fuel new_version w1 = Some (true, w2) /\
       install_image E fuel new_version w2 = Some (true, w3) /\
       w' = after_success new_version w3) /\
  (exists evs,
     trace w' = trace w ++ evs /\
     (b = true <-> In (EvSetStatus Success) evs)) /\
  (software_version (dev w) = new_version ->
     b = false /\
     last_upgrade_status (dev w') = last_upgrade_status (dev w)).
Proof.
  intros Hrun. apply update_Ending in Hrun.
  destruct Hrun as [w1 Hw|w1 Hw Hv|w1 w2 Hw Hv Hd|w1 w2 w3 Hw Hv Hd Hi
                    |w1 w2 w3 Hw Hv Hd Hi];
    pose proof (admission_frames _ _ _ _ _ Hw) as (Hv1 & _ & Hs1 & evs1 & Ht1 & Hq1);
    try pose proof (preserves_download_image _ _ _ _ _ _ Hd)
      as (Hv2 & _ & Hs2 & evs2 & Ht2 & Hq2);
    try pose proof (preserves_install_image _ _ _ _ _ _ Hi)
      as (Hv3 & _ & Hs3 & evs3 & Ht3 & Hq3);
    (split; [|split]).
  (* the device never became Idle *)
  - split; [discriminate|]. intros (u1 & _ & _ & Hu & _). congruence.
  - exists (evs1 ++ [EvLog ERROR
      "The update could not be performed as the device state is not idle."]).
    split; [cbn; rewrite Ht1, app_assoc; reflexivity|].
    split; [discriminate|]. intros Hin. exfalso.
    apply in_app_or in Hin. destruct Hin as [Hin|[Hin|[]]];
      [exact (quiet_no_commit _ _ Hq1 Hin)|discriminate].
  - intros _. split; [reflexivity|exact Hs1].
  (* same version *)
  - split; [discriminate|]. intros (u1 & _ & _ & Hu & Hne & _).
    rewrite Hw in Hu. injection Hu as <-. contradiction.
  - exists (evs1 ++ [EvLog INFO
      "The current version and the new version are the same."]).
    split; [cbn; rewrite Ht1, app_assoc; reflexivity|].
    split; [discriminate|]. intros Hin. exfalso.
    apply in_app_or in Hin. destruct Hin as [Hin|[Hin|[]]];
      [exact (quiet_no_commit _ _ Hq1 Hin)|discriminate].
  - intros _. split; [reflexivity|exact Hs1].
  (* download failed *)
  - split; [discriminate|]. intros (u1 & u2 & _ & Hu & _ & Hdu & _).
    rewrite Hw in Hu. injection Hu as <-. congruence.
  - exists (evs1 ++ evs2 ++ [EvSetStatus Failed; EvSetState Idle]).
    split; [cbn; rewrite Ht2, Ht1, !app_assoc; reflexivity|].
    split; [discriminate|]. intros Hin. exfalso.
    apply in_app_or in Hin. destruct Hin as [Hin|Hin];
      [exact (quiet_no_commit _ _ Hq1 Hin)|].
    apply in_app_or in Hin. destruct Hin as [Hin|[Hin|[Hin|[]]]];
      [exact (quiet_no_commit _ _ Hq2 Hin)|discriminate|discriminate].
  - intros Hsame. congruence.
  (* install failed *)
  - split; [discriminate|]. intros (u1 & u2 & u3 & Hu & _ & Hdu & Hiu & _).
    rewrite Hw in Hu. injection Hu as <-.
    rewrite Hd in Hdu. injection Hdu as <-. congruence.
  - exists (evs1 ++ evs2 ++ evs3 ++ [EvSetStatus Failed; EvSetState Idle]).
    split; [cbn; rewrite Ht3, Ht2, Ht1, !app_assoc; reflexivity|].
    split; [discriminate|]. intros Hin. exfalso.
    apply in_app_or in Hin. destruct Hin as [Hin|Hin];
      [exact (quiet_no_commit _ _ Hq1 Hin)|].
    apply in_app_or in Hin. destruct Hin as [Hin|Hin];
      [exact (quiet_no_commit _ _ Hq2 Hin)|].
    apply in_app_or in Hin. destruct Hin as [Hin|[Hin|[Hin|[]]]];
      [exact (quiet_no_commit _ _ Hq3 Hin)|discriminate|discriminate].
  - intros Hsame. congruence.
  (* committed *)
  - split; [intros _|reflexivity]. exists w1, w2, w3. repeat split; assumption.
  - exists (evs1 ++ evs2 ++ evs3 ++
            [EvSetStatus Success; EvSetVersion new_version; EvSetState Idle;
             EvLog INFO ("Software update to version " ++ str_of_int new_version
                         ++ " complete.")]).
    split; [cbn [after_success trace]; rewrite Ht3, Ht2, Ht1, !app_assoc; reflexivity|].
    split; [intros _|reflexivity].
    apply in_or_app. right. apply in_or_app. right. apply in_or_app. right.
    left. reflexivity.
  - intros Hsame. congruence.
Qed.

Lemma update_success_commits_witness :
  let E := calm_env 12 in
  let w := world_of (Device_init 2 None) in
  exists w1 w2 w3,
    admission E 10 w = Some (true, w1) /\
    software_version (dev w1) <> 4%Z /\
    download_image E 10 4 w1 = Some (true, w2) /\
    install_image E 10 4 w2 = Some (true, w3) /\
    exists w',
      update E 10 4 w = Some (true, w') /\
      last_upgrade_status (dev w') = Success /\
      software_version (dev w') = 4%Z /\
      state (dev w') = Idle /\
      trace w' = trace w3 ++
        [EvSetStatus Success; EvSetVersion 4; EvSetState Idle;
         EvLog INFO "Software update to version 4 complete."].
Proof.
  cbv zeta. do 3 eexists.
  split; [vm_compute; reflexivity|].
  split; [discriminate|].
  split; [vm_compute; reflexivity|].
  split; [vm_compute; reflexivity|].
  apply (update_success_commits (calm_env 12) 10 4 (world_of (Device_init 2 None))
           (bump (bump (world_of (Device_init 2 None))))
           {| dev := mkDevice 2 None No_Update Downloading;
              tick := 14; spawned := 1;
              trace := [EvLog INFO "Starting software version 4 download.";
                        EvSetState Downloading;
                        EvSpawn 0 ["curl"; "-O"; DOWNLOAD_URL]%string;
                        EvSleep POLLING_TIME; EvSleep POLLING_TIME;
                        EvLog INFO "Download completed successfully."] |});
    [reflexivity|discriminate|vm_compute; reflexivity|vm_compute; reflexivity].
Defined.

Lemma update_True_iff_committed_witness :
  let E := calm_env 12 in
  let w := world_of (Device_init 2 None) in
  (exists w',
     update E 10 4 w = Some (true, w') /\
     exists evs, trace w' = trace w ++ evs /\ In (EvSetStatus Success) evs) /\
  (exists w',
     update E 10 2 w = Some (false, w') /\
     software_version (dev w) = 2%Z /\
     last_upgrade_status (dev w') = last_upgrade_status (dev w)).
Proof.
  cbv zeta. split.
  - destruct (update (calm_env 12) 10 4 (world_of (Device_init 2 None)))
      as [[[|] w']|] eqn:Hrun; try (vm_compute in Hrun; discriminate).
    exists w'. split; [reflexivity|].
    destruct (update_True_iff_committed (calm_env 12) 10 4 _ _ _ Hrun)
      as (_ & (evs & Ht & Hiff) & _).
    exists evs. split; [exact Ht|]. apply Hiff. reflexivity.
  - destruct (update (calm_env 12) 10 2 (world_of (Device_init 2 None)))
      as [[[|] w']|] eqn:Hrun; try (vm_compute in Hrun; discriminate).
    exists w'. split; [reflexivity|]. split; [reflexivity|].
    destruct (update_True_iff_committed (calm_env 12) 10 2 _ _ _ Hrun)
      as (_ & _ & Hnoop).
    apply Hnoop. reflexivity.
Defined.

(** * Further properties of the code *)

(** ** One pass of each loop, as an equation *)

Lemma log_run lvl msg w :
  isEnabledFor lvl = true -> log lvl msg w = Some (tt, after_log lvl msg w).
Proof. unfold log. intros ->. reflexivity. Qed.

Lemma log_lines_run lines w : log_lines lines w = Some (tt, w).
Proof.
  revert w. induction lines as [|output rest IH]; intros w; cbn [log_lines].
  - reflexivity.
  - destruct (String.eqb output ""); [reflexivity|].
    unfold bind. change (log DEBUG (strip output) w) with (Some (tt, w)).
    apply IH.
Qed.

Lemma drain_stdout_run E process w : drain_stdout E process w = Some (tt, bump w).
Proof.
  unfold drain_stdout, bind, ask. apply log_lines_run.
Qed.

Lemma get_power_status_run E w :
  get_power_status E w
  = match sensors_battery_at E (tick w) with
    | Some power_plugged => Some (power_plugged, bump w)
    | None => Some (Some false,
                    after_log WARNING "Unable to determine battery status." (bump w))
    end.
Proof.
  unfold get_power_status, bind, ask.
  destruct (sensors_battery_at E (tick w)); reflexivity.
Qed.

(** The world after a child was given up: one error record, terminate, wait. *)
Lemma give_up_run msg process w :
  (log ERROR msg ;; process_terminate process ;; process_wait process ;; ret false) w
  = Some (false,
          {| dev := dev w; tick := tick w; spawned := spawned w;
             trace := trace w ++ [EvLog ERROR msg; EvTerminate process; EvJoin process] |}).
Proof.
  unfold bind, log, process_terminate, process_wait, emit, ret.
  cbn [isEnabledFor levelno logger_level Z.leb Z.compare Pos.compare
       Pos.compare_cont dev tick spawned trace].
  rewrite <- !app_assoc. reflexivity.
Qed.

Lemma download_loop_unfold E fuel process start_time w :
  download_loop E (S fuel) process start_time w
  = if negb match http_get_at E (tick w) with
            | Some status_code => (status_code =? 200)%Z
            | None => false
            end
    then Some (false,
               {| dev := dev w; tick := S (tick w); spawned := spawned w;
                  trace := trace w ++
                    [EvLog ERROR "Internet connection lost during download.";
                     EvTerminate process; EvJoin process] |})
    else if negb (Qltb (start_time - time_at E (S (tick w)))
                    (inject_Z MAX_DOWNLOAD_TIME))
    then Some (false,
               {| dev := dev w; tick := S (S (tick w)); spawned := spawned w;
                  trace := trace w ++
                    [EvLog ERROR "Download timed out after 300 seconds.";
                     EvTerminate process; EvJoin process] |})
    else if is_not_None (poll_at E (S (S (tick w))) process)
    then Some (true,
               after_log INFO "Download completed successfully." (bump (bump (bump w))))
    else (time_sleep E POLLING_TIME ;; download_loop E fuel process start_time)
           (bump (bump (bump w))).
Proof.
  cbn [download_loop].
  rewrite (bind_run _ (get_connection_status_run E w)).
  destruct (negb _).
  - apply give_up_run.
  - unfold check_download_timeout.
    rewrite (bind_run _ (check_time_not_exceeded_run E _ _ (bump w))).
    cbn [tick bump]. destruct (negb _).
    + apply (give_up_run "Download timed out after 300 seconds." process (bump (bump w))).
    + unfold bind at 1. unfold process_poll at 1. unfold ask at 1. cbn [tick bump].
      destruct (is_not_None _); reflexivity.
Qed.

Lemma install_loop_unfold E fuel process start_time w :
  install_loop E (S fuel) process start_time w
  = match sensors_battery_at E (tick w) with
    | None =>
        Some (false,
              {| dev := dev w; tick := S (tick w); spawned := spawned w;
                 trace := trace w ++
                   [EvLog WARNING "Unable to determine battery status.";
                    EvLog ERROR "Power loss detected during the upgrade.";
                    EvTerminate process; EvJoin process] |})
    | Some power_plugged =>
        if negb (truthy power_plugged)
        then Some (false,
                   {| dev := dev w; tick := S (tick w); spawned := spawned w;
                      trace := trace w ++
                        [EvLog ERROR "Power loss detected during the upgrade.";
                         EvTerminate process; EvJoin process] |})
        else if negb (Qltb (start_time - time_at E (S (tick w)))
                        (inject_Z MAX_UPGRADE_TIME))
        then Some (false,
                   {| dev := dev w; tick := S (S (tick w)); spawned := spawned w;
                      trace := trace w ++
                        [EvLog ERROR "Upgrade timed out after 600 seconds.";
                         EvTerminate process; EvJoin process] |})
        else if is_not_None (poll_at E (S (S (S (tick w)))) process)
        then Some (true,
                   after_log INFO "Upgrade completed successfully."
                     (bump (bump (bump (bump w)))))
        else (time_sleep E POLLING_TIME ;; install_loop E fuel process start_time)
               (bump (bump (bump (bump w))))
    end.
Proof.
  cbn [install_loop]. unfold bind at 1. rewrite get_power_status_run.
  destruct (sensors_battery_at E (tick w)) as [power_plugged|].
  - destruct (negb (truthy power_plugged)).
    + apply give_up_run.
    + unfold check_install_timeout.
      rewrite (bind_run _ (check_time_not_exceeded_run E _ _ (bump w))).
      cbn [tick bump]. destruct (negb _).
      * apply (give_up_run "Upgrade timed out after 600 seconds." process (bump (bump w))).
      * rewrite (bind_run _ (drain_stdout_run E process (bump (bump w)))).
        unfold bind at 1. unfold process_poll at 1. unfold ask at 1. cbn [tick bump].
        destruct (is_not_None _); reflexivity.
  - cbn [truthy negb].
    rewrite give_up_run. cbn [after_log dev tick spawned trace bump].
    rewrite <- !app_assoc. reflexivity.
Qed.

(** ** The install phase *)

(** X1.  Called while the device is not in [Downloading], the install phase
    returns [False] at once and leaves the world as it found it: no field
    written, no process started, nothing logged. *)
Theorem install_image_needs_Downloading E fuel new_version w :
  state (dev w) <> Downloading ->
  install_image E fuel new_version w = Some (false, w).
Proof.
  intros Hstate. unfold install_image. unfold bind at 1.
  unfold get_current_state at 1.
  destruct (DeviceState_eq_dec (state (dev w)) Downloading) as [Heq|_];
    [contradiction|reflexivity].
Qed.

Lemma install_image_needs_Downloading_witness :
  let w := world_of (Device_init 2 None) in
  state (dev w) <> Downloading /\
  install_image (calm_env 0) 0 4 w = Some (false, w).
Proof.
  cbv zeta. split; [discriminate|].
  apply (install_image_needs_Downloading (calm_env 0) 0 4
           (world_of (Device_init 2 None))).
  discriminate.
Defined.

(** X2.  A tick of the install loop asks the battery sensor first.  Without a
    sensor it logs a warning and then, as for a battery that is unplugged or
    whose plug state is undetermined, logs the power loss, terminates and
    reaps the child and returns [False] after that single question, whatever
    the clock and the child would have answered.  With the battery plugged it
    asks the clock next and reports a timeout after two questions; only then
    does it drain the output and ask for the exit status, and an exited child
    ends the phase with [True]. *)
Theorem install_loop_check_order E fuel process start_time w :
  let battery := sensors_battery_at E (tick w) in
  let within :=
    Qltb (start_time - time_at E (S (tick w))) (inject_Z MAX_UPGRADE_TIME) in
  let exited := is_not_None (poll_at E (S (S (S (tick w)))) process) in
  (battery = None ->
     install_loop E (S fuel) process start_time w
     = Some (false,
             {| dev := dev w; tick := S (tick w); spawned := spawned w;
                trace := trace w ++
                  [EvLog WARNING "Unable to determine battery status.";
                   EvLog ERROR "Power loss detected during the upgrade.";
                   EvTerminate process; EvJoin process] |})) /\
  (battery = Some (Some false) \/ battery = Some None ->
     install_loop E (S fuel) process start_time w
     = Some (false,
             {| dev := dev w; tick := S (tick w); spawned := spawned w;
                trace := trace w ++
                  [EvLog ERROR "Power loss detected during the upgrade.";
                   EvTerminate process; EvJoin process] |})) /\
  (battery = Some (Some true) -> within = false ->
     install_loop E (S fuel) process start_time w
     = Some (false,
             {| dev := dev w; tick := S (S (tick w)); spawned := spawned w;
                trace := trace w ++
                  [EvLog ERROR "Upgrade timed out after 600 seconds.";
                   EvTerminate process; EvJoin process] |})) /\
  (battery = Some (Some true) -> within = true -> exited = true ->
     install_loop E (S fuel) process start_time w
     = Some (true,
             {| dev := dev w; tick := S (S (S (S (tick w)))); spawned := spawned w;
                trace := trace w ++
                  [EvLog INFO "Upgrade completed successfully."] |})) /\
  (battery = Some (Some true) -> within = true -> exited = false ->
     exists w1,
       time_sleep E POLLING_TIME (bump (bump (bump (bump w)))) = Some (tt, w1) /\
       install_loop E (S fuel) process start_time w
       = install_loop E fuel process start_time w1).
Proof.
  cbv zeta. rewrite install_loop_unfold. repeat split.
  - intros ->. reflexivity.
  - intros [-> | ->]; reflexivity.
  - intros -> ->. reflexivity.
  - intros -> -> ->. reflexivity.
  - intros -> -> ->. cbn [truthy negb].
    destruct (time_sleep_run E POLLING_TIME (bump (bump (bump (bump w)))))
      as (w1 & Hs & _).
    exists w1. split; [exact Hs|]. rewrite (bind_run _ Hs). reflexivity.
Qed.

Lemma install_loop_check_order_witness :
  let w := {| dev := mkDevice 2 None No_Update Upgrading;
              tick := 1; spawned := 2; trace := [] |} in
  (sensors_battery_at unplugged_env 1 = None /\
   install_loop unplugged_env 1 1 0 w
   = Some (false,
           {| dev := dev w; tick := 2; spawned := 2;
              trace := [EvLog WARNING "Unable to determine battery status.";
                        EvLog ERROR "Power loss detected during the upgrade.";
                        EvTerminate 1; EvJoin 1] |})) /\
  (sensors_battery_at set_back_env 1 = Some (Some true) /\
   install_loop set_back_env 1 1 3600 w
   = Some (false,
           {| dev := dev w; tick := 3; spawned := 2;
              trace := [EvLog ERROR "Upgrade timed out after 600 seconds.";
                        EvTerminate 1; EvJoin 1] |})) /\
  install_loop (calm_env 0) 1 1 0 w
  = Some (true,
          {| dev := dev w; tick := 5; spawned := 2;
             trace := [EvLog INFO "Upgrade completed successfully."] |}) /\
  exists w1,
    time_sleep (calm_env 9) POLLING_TIME (bump (bump (bump (bump w)))) = Some (tt, w1) /\
    install_loop (calm_env 9) 1 1 0 w = install_loop (calm_env 9) 0 1 0 w1.
Proof.
  cbv zeta.
  pose (w := {| dev := mkDevice 2 None No_Update Upgrading;
                tick := 1; spawned := 2; trace := [] |}).
  split; [|split; [|split]].
  - split; [reflexivity|].
    apply (proj1 (install_loop_check_order unplugged_env 0 1 0 w)). reflexivity.
  - split; [reflexivity|].
    apply (proj1 (proj2 (proj2 (install_loop_check_order set_back_env 0 1 3600 w))));
      reflexivity.
  - apply (proj1 (proj2 (proj2 (proj2 (install_loop_check_order (calm_env 0) 0 1 0 w)))));
      reflexivity.
  - apply (proj2 (proj2 (proj2 (proj2 (install_loop_check_order (calm_env 9) 0 1 0 w)))));
      reflexivity.
Defined.

(** ** No child is left behind *)

Lemma download_loop_effects E fuel process start_time w b w' :
  download_loop E fuel process start_time w = Some (b, w') ->
  spawned w' = spawned w /\
  exists evs,
    trace w' = trace w ++ evs /\
    (b = false -> exists before, evs = before ++ [EvTerminate process; EvJoin process]) /\
    (b = true -> ~ In (EvTerminate process) evs).
Proof.
  revert w. induction fuel as [|fuel IH]; intros w; [discriminate|].
  rewrite download_loop_unfold.
  destruct (negb _).
  { intros H. injection H as <- <-. split; [reflexivity|].
    eexists. split; [reflexivity|]. split; [|discriminate].
    intros _. exists [EvLog ERROR "Internet connection lost during download."].
    reflexivity. }
  destruct (negb _).
  { intros H. injection H as <- <-. split; [reflexivity|].
    eexists. split; [reflexivity|]. split; [|discriminate].
    intros _. exists [EvLog ERROR "Download timed out after 300 seconds."].
    reflexivity. }
  destruct (is_not_None _).
  { intros H. injection H as <- <-. split; [reflexivity|].
    eexists. split; [reflexivity|]. split; [discriminate|].
    intros _ [Hin|[]]. discriminate. }
  destruct (time_sleep_run E POLLING_TIME (bump (bump (bump w))))
    as (w1 & Hs & _ & Hsp & Htr & _).
  rewrite (bind_run _ Hs). intros H.
  destruct (IH _ H) as (Hsp' & evs & Ht & Hfalse & Htrue).
  split; [rewrite Hsp', Hsp; reflexivity|].
  exists (EvSleep POLLING_TIME :: evs). split; [|split].
  - rewrite Ht, Htr. cbn [trace bump]. rewrite <- app_assoc. reflexivity.
  - intros Hb. destruct (Hfalse Hb) as (before & ->).
    exists (EvSleep POLLING_TIME :: before). reflexivity.
  - intros Hb [Hin|Hin]; [discriminate|exact (Htrue Hb Hin)].
Qed.

(** X4.  However a download loop ends, it starts no process of its own; when
    it returns [False] its last two effects are the termination of the child
    and the wait for its exit, and when it returns [True] it has never
    terminated the child. *)
Theorem download_loop_reaps_child E fuel process start_time w b w' :
  download_loop E fuel process start_time w = Some (b, w') ->
  spawned w' = spawned w /\
  exists evs,
    trace w' = trace w ++ evs /\
    (b = false -> exists before, evs = before ++ [EvTerminate process; EvJoin process]) /\
    (b = true -> ~ In (EvTerminate process) evs).
Proof. apply download_loop_effects. Qed.

Lemma download_loop_reaps_child_witness :
  let w := {| dev := mkDevice 2 None No_Update Downloading;
              tick := 1; spawned := 1; trace := [] |} in
  exists w',
    download_loop offline_env 1 0 0 w = Some (false, w') /\
    spawned w' = spawned w /\
    exists evs,
      trace w' = trace w ++ evs /\
      exists before, evs = before ++ [EvTerminate 0; EvJoin 0].
Proof.
  cbv zeta. eexists. split; [vm_compute; reflexivity|].
  destruct (download_loop_reaps_child offline_env 1 0 0
              {| dev := mkDevice 2 None No_Update Downloading;
                 tick := 1; spawned := 1; trace := [] |} false _ eq_refl)
    as (Hsp & evs & Ht & Hfalse & _).
  split; [exact Hsp|]. exists evs. split; [exact Ht|]. apply Hfalse. reflexivity.
Defined.

Lemma install_loop_effects E fuel process start_time w b w' :
  install_loop E fuel process start_time w = Some (b, w') ->
  spawned w' = spawned w /\
  exists evs,
    trace w' = trace w ++ evs /\
    (b = false -> exists before, evs = before ++ [EvTerminate process; EvJoin process]) /\
    (b = true -> ~ In (EvTerminate process) evs).
Proof.
  revert w. induction fuel as [|fuel IH]; intros w; [discriminate|].
  rewrite install_loop_unfold.
  destruct (sensors_battery_at E (tick w)) as [power_plugged|].
  2:{ intros H. injection H as <- <-. split; [reflexivity|].
      eexists. split; [reflexivity|]. split; [|discriminate].
      intros _. exists [EvLog WARNING "Unable to determine battery status.";
                        EvLog ERROR "Power loss detected during the upgrade."].
      reflexivity. }
  destruct (negb (truthy power_plugged)).
  { intros H. injection H as <- <-. split; [reflexivity|].
    eexists. split; [reflexivity|]. split; [|discriminate].
    intros _. exists [EvLog ERROR "Power loss detected during the upgrade."].
    reflexivity. }
  destruct (negb _).
  { intros H. injection H as <- <-. split; [reflexivity|].
    eexists. split; [reflexivity|]. split; [|discriminate].
    intros _. exists [EvLog ERROR "Upgrade timed out after 600 seconds."].
    reflexivity. }
  destruct (is_not_None _).
  { intros H. injection H as <- <-. split; [reflexivity|].
    eexists. split; [reflexivity|]. split; [discriminate|].
    intros _ [Hin|[]]. discriminate. }
  destruct (time_sleep_run E POLLING_TIME (bump (bump (bump (bump w)))))
    as (w1 & Hs & _ & Hsp & Htr & _).
  rewrite (bind_run _ Hs). intros H.
  destruct (IH _ H) as (Hsp' & evs & Ht & Hfalse & Htrue).
  split; [rewrite Hsp', Hsp; reflexivity|].
  exists (EvSleep POLLING_TIME :: evs). split; [|split].
  - rewrite Ht, Htr. cbn [trace bump]. rewrite <- app_assoc. reflexivity.
  - intros Hb. destruct (Hfalse Hb) as (before & ->).
    exists (EvSleep POLLING_TIME :: before). reflexivity.
  - intros Hb [Hin|Hin]; [discriminate|exact (Htrue Hb Hin)].
Qed.

(** X5.  The same for the install loop. *)
Theorem install_loop_reaps_child E fuel process start_time w b w' :
  install_loop E fuel process start_time w = Some (b, w') ->
  spawned w' = spawned w /\
  exists evs,
    trace w' = trace w ++ evs /\
    (b = false -> exists before, evs = before ++ [EvTerminate process; EvJoin process]) /\
    (b = true -> ~ In (EvTerminate process) evs).
Proof. apply install_loop_effects. Qed.

Lemma install_loop_reaps_child_witness :
  let w := {| dev := mkDevice 2 None No_Update Upgrading;
              tick := 1; spawned := 2; trace := [] |} in
  exists w',
    install_loop unplugged_env 1 1 0 w = Some (false, w') /\
    spawned w' = spawned w /\
    exists evs,
      trace w' = trace w ++ evs /\
      exists before, evs = before ++ [EvTerminate 1; EvJoin 1].
Proof.
  cbv zeta. eexists. split; [vm_compute; reflexivity|].
  destruct (install_loop_reaps_child unplugged_env 1 1 0
              {| dev := mkDevice 2 None No_Update Upgrading;
                 tick := 1; spawned := 2; trace := [] |} false _ eq_refl)
    as (Hsp & evs & Ht & Hfalse & _).
  split; [exact Hsp|]. exists evs. split; [exact Ht|]. apply Hfalse. reflexivity.
Defined.

(** ** The wait loop *)

Lemma wait_loop_shape E fuel target start_time timeout_duration w b w' :
  wait_loop E DeviceState_eq_dec fuel target get_current_state
    start_time timeout_duration w = Some (b, w') ->
  spawned w' = spawned w /\
  (exists n,
     trace w' = trace w ++ repeat (EvSleep POLLING_TIME) n /\
     tick w' = (tick w + 1 + 2 * n)%nat) /\
  (b = true -> state (dev w') = target).
Proof.
  revert w. induction fuel as [|fuel IH]; intros w; [discriminate|].
  cbn [wait_loop].
  rewrite (bind_run _ (check_time_not_exceeded_run E _ _ w)).
  destruct (Qltb _ _).
  - unfold bind at 1. unfold get_current_state at 1.
    destruct (DeviceState_eq_dec target (state (dev (bump w)))) as [Heq|Hne].
    + intros H. injection H as <- <-. split; [reflexivity|]. split.
      * exists 0%nat. cbn [repeat trace bump tick]. rewrite app_nil_r. split; [reflexivity|lia].
      * intros _. symmetry. exact Heq.
    + destruct (time_sleep_run E POLLING_TIME (bump w)) as (w1 & Hs & Htk & Hsp & Htr & _).
      rewrite (bind_run _ Hs). intros H.
      destruct (IH _ H) as (Hsp' & (n & Ht & Htick) & Hstate).
      split; [rewrite Hsp', Hsp; reflexivity|]. split; [|exact Hstate].
      exists (S n). split.
      * rewrite Ht, Htr. cbn [trace bump repeat]. rewrite <- app_assoc. reflexivity.
      * rewrite Htick, Htk. cbn [tick bump]. lia.
  - intros H. injection H as <- <-. split; [reflexivity|]. split; [|discriminate].
    exists 0%nat. cbn [repeat trace bump tick]. rewrite app_nil_r. split; [reflexivity|lia].
Qed.

Lemma wait_shape E fuel target timeout_duration w b w' :
  wait E DeviceState_eq_dec fuel target get_current_state timeout_duration w
  = Some (b, w') ->
  spawned w' = spawned w /\
  (exists n,
     trace w' = trace w ++ repeat (EvSleep POLLING_TIME) n /\
     tick w' = (tick w + 2 + 2 * n)%nat) /\
  (b = true -> state (dev w') = target).
Proof.
  unfold wait, time_time. unfold bind at 1. unfold ask at 1. intros H.
  destruct (wait_loop_shape _ _ _ _ _ _ _ _ H) as (Hsp & (n & Ht & Htick) & Hstate).
  split; [exact Hsp|]. split; [|exact Hstate].
  exists n. split; [exact Ht|]. rewrite Htick. cbn [tick bump]. lia.
Qed.

(** X6.  A wait for a device state that returns has done nothing but poll:
    it wrote no version and no status, started no process, and after [n]
    sleeps of [POLLING_TIME] it has asked [2 + 2 * n] questions.  When it
    returns [True], the device is in the state waited for. *)
Theorem wait_only_sleeps E fuel target timeout_duration w b w' :
  wait E DeviceState_eq_dec fuel target get_current_state timeout_duration w
  = Some (b, w') ->
  software_version (dev w') = software_version (dev w) /\
  last_upgrade_status (dev w') = last_upgrade_status (dev w) /\
  spawned w' = spawned w /\
  (exists n,
     trace w' = trace w ++ repeat (EvSleep POLLING_TIME) n /\
     tick w' = (tick w + 2 + 2 * n)%nat) /\
  (b = true -> state (dev w') = target).
Proof.
  intros H.
  destruct (preserves_wait E fuel target get_current_state timeout_duration
              preserves_get_current_state _ _ _ H) as (Hv & _ & Hs & _).
  destruct (wait_shape _ _ _ _ _ _ _ H) as (Hsp & Hn & Hstate).
  repeat split; assumption.
Qed.

Lemma wait_only_sleeps_witness :
  let w := world_of (mkDevice 2 None No_Update Positioning) in
  exists w',
    wait (released_env 4) DeviceState_eq_dec 5 Idle get_current_state 600 w
    = Some (true, w') /\
    software_version (dev w') = software_version (dev w) /\
    last_upgrade_status (dev w') = last_upgrade_status (dev w) /\
    spawned w' = spawned w /\
    (exists n,
       trace w' = trace w ++ repeat (EvSleep POLLING_TIME) n /\
       tick w' = (tick w + 2 + 2 * n)%nat) /\
    state (dev w') = Idle.
Proof.
  cbv zeta. eexists. split; [vm_compute; reflexivity|].
  destruct (wait_only_sleeps (released_env 4) 5 Idle 600
              (world_of (mkDevice 2 None No_Update Positioning)) true _ eq_refl)
    as (Hv & Hs & Hsp & Hn & Hstate).
  split; [exact Hv|]. split; [exact Hs|]. split; [exact Hsp|]. split; [exact Hn|].
  apply Hstate. reflexivity.
Defined.

Lemma wait_loop_released E extra target timeout_duration :
  clock_monotone E -> 0 < timeout_duration ->
  forall n k w,
    (k <= tick w)%nat ->
    state (dev w) <> target ->
    (forall i, (i < n)%nat -> foreign_write_at E (tick w + 1 + 2 * i) <> Some target) ->
    foreign_write_at E (tick w + 1 + 2 * n) = Some target ->
    exists w',
      wait_loop E DeviceState_eq_dec (S (S n) + extra) target get_current_state
        (time_at E k) timeout_duration w = Some (true, w') /\
      state (dev w') = target /\
      tick w' = (tick w + 3 + 2 * n)%nat /\
      trace w' = trace w ++ repeat (EvSleep POLLING_TIME) (S n).
Proof.
  intros Hmono Hpos. induction n as [|n IH]; intros k w Hk Hstate Hbefore Hat.
  - cbn [Nat.add wait_loop].
    rewrite (bind_run _ (check_time_not_exceeded_always E k timeout_duration w
                           Hmono Hk Hpos)).
    unfold bind at 1. unfold get_current_state at 1. cbn [dev bump].
    destruct (DeviceState_eq_dec target (state (dev w))) as [Heq|_];
      [congruence|].
    destruct (time_sleep_run E POLLING_TIME (bump w)) as (w1 & Hs & Htk & _ & Htr & Hst).
    rewrite (bind_run _ Hs).
    cbn [tick bump dev] in Htk, Hst, Htr.
    replace (tick w + 1 + 2 * 0)%nat with (S (tick w)) in Hat by lia.
    rewrite Hat in Hst.
    assert (Hk1 : (k <= tick w1)%nat) by lia.
    rewrite (bind_run _ (check_time_not_exceeded_always E k timeout_duration w1
                           Hmono Hk1 Hpos)).
    unfold bind at 1. unfold get_current_state at 1. cbn [dev bump].
    destruct (DeviceState_eq_dec target (state (dev w1))) as [_|Hne];
      [|congruence].
    eexists. split; [reflexivity|]. cbn [dev tick trace bump repeat].
    split; [exact Hst|]. split; [lia|exact Htr].
  - cbn [Nat.add wait_loop].
    rewrite (bind_run _ (check_time_not_exceeded_always E k timeout_duration w
                           Hmono Hk Hpos)).
    unfold bind at 1. unfold get_current_state at 1. cbn [dev bump].
    destruct (DeviceState_eq_dec target (state (dev w))) as [Heq|_];
      [congruence|].
    destruct (time_sleep_run E POLLING_TIME (bump w)) as (w1 & Hs & Htk & _ & Htr & Hst).
    rewrite (bind_run _ Hs).
    cbn [tick bump dev] in Htk, Hst, Htr.
    assert (Hstate1 : state (dev w1) <> target).
    { rewrite Hst. pose proof (Hbefore 0%nat ltac:(lia)) as H0.
      replace (tick w + 1 + 2 * 0)%nat with (S (tick w)) in H0 by lia.
      destruct (foreign_write_at E (S (tick w))); congruence. }
    destruct (IH k w1 ltac:(lia) Hstate1) as (w' & Hrun & Hst' & Htk' & Htr').
    + intros i Hi. replace (tick w1 + 1 + 2 * i)%nat with (tick w + 1 + 2 * S i)%nat by lia.
      apply Hbefore. lia.
    + replace (tick w1 + 1 + 2 * n)%nat with (tick w + 1 + 2 * S n)%nat by lia.
      exact Hat.
    + exists w'. split; [exact Hrun|]. split; [exact Hst'|]. split; [lia|].
      rewrite Htr', Htr. rewrite <- app_assoc. reflexivity.
Qed.

(** X7.  Under a clock that never runs backwards, a wait with a positive
    timeout for a device that is not yet in the target state returns [True]
    as soon as another thread has put it there: if the write lands during
    sleep number [n + 1] and no earlier one, the wait returns after exactly
    [n + 1] sleeps, with the device in the target state. *)
Theorem wait_returns_once_released E n extra target timeout_duration w :
  clock_monotone E ->
  0 < timeout_duration ->
  state (dev w) <> target ->
  (forall i, (i < n)%nat -> foreign_write_at E (tick w + 2 + 2 * i) <> Some target) ->
  foreign_write_at E (tick w + 2 + 2 * n) = Some target ->
  exists w',
    wait E DeviceState_eq_dec (S (S n) + extra) target get_current_state
      timeout_duration w = Some (true, w') /\
    state (dev w') = target /\
    tick w' = (tick w + 4 + 2 * n)%nat /\
    trace w' = trace w ++ repeat (EvSleep POLLING_TIME) (S n).
Proof.
  intros Hmono Hpos Hstate Hbefore Hat.
  unfold wait, time_time. unfold bind at 1. unfold ask at 1.
  destruct (wait_loop_released E extra target timeout_duration Hmono Hpos n
              (tick w) (bump w)) as (w' & Hrun & Hst & Htk & Htr).
  - cbn [tick bump]. lia.
  - exact Hstate.
  - intros i Hi. cbn [tick bump].
    replace (S (tick w) + 1 + 2 * i)%nat with (tick w + 2 + 2 * i)%nat by lia.
    apply Hbefore. exact Hi.
  - cbn [tick bump].
    replace (S (tick w) + 1 + 2 * n)%nat with (tick w + 2 + 2 * n)%nat by lia.
    exact Hat.
  - exists w'. split; [exact Hrun|]. split; [exact Hst|].
    cbn [tick bump trace] in Htk, Htr. split; [lia|exact Htr].
Qed.

Lemma released_env_monotone at_tick : clock_monotone (released_env at_tick).
Proof.
  intros n m H. cbn [time_at released_env]. rewrite <- Zle_Qle. lia.
Qed.

Lemma wait_returns_once_released_witness :
  let E := released_env 4 in
  let w := world_of (mkDevice 2 None No_Update Positioning) in
  clock_monotone E /\
  0 < 600 /\
  state (dev w) <> Idle /\
  foreign_write_at E (tick w + 2 + 2 * 0) <> Some Idle /\
  foreign_write_at E (tick w + 2 + 2 * 1) = Some Idle /\
  exists w',
    wait E DeviceState_eq_dec 3 Idle get_current_state 600 w = Some (true, w') /\
    state (dev w') = Idle /\
    tick w' = 6%nat /\
    trace w' = [EvSleep POLLING_TIME; EvSleep POLLING_TIME].
Proof.
  cbv zeta. split; [apply released_env_monotone|]. split; [reflexivity|].
  split; [discriminate|]. split; [discriminate|]. split; [reflexivity|].
  apply (wait_returns_once_released (released_env 4) 1 0 Idle 600
           (world_of (mkDevice 2 None No_Update Positioning))).
  - apply released_env_monotone.
  - reflexivity.
  - discriminate.
  - intros i Hi. assert (i = 0%nat) as -> by lia. discriminate.
  - reflexivity.
Defined.

(** ** What a run of [update] leaves behind *)

(** X9.  When [update] returns [True] the device runs the requested version,
    which differs from the one it started with, its last status is [Success]
    and it is Idle.  When it returns [False] the version is the one it
    started with, and the last status is either untouched or [Failed]; it is
    [Failed] only for a request for a different version, and then the device
    is Idle.  The device type is never written. *)
Theorem update_fields_after_return E fuel new_version w b w' :
  update E fuel new_version w = Some (b, w') ->
  device_type (dev w') = device_type (dev w) /\
  (b = true ->
     software_version (dev w') = new_version /\
     software_version (dev w) <> new_version /\
     last_upgrade_status (dev w') = Success /\
     state (dev w') = Idle) /\
  (b = false ->
     software_version (dev w') = software_version (dev w) /\
     (last_upgrade_status (dev w') = last_upgrade_status (dev w) \/
      last_upgrade_status (dev w') = Failed /\
      state (dev w') = Idle /\
      software_version (dev w) <> new_version)).
Proof.
  intros Hrun. apply update_Ending in Hrun.
  destruct Hrun as [w1 Hw|w1 Hw Hv|w1 w2 Hw Hv Hd|w1 w2 w3 Hw Hv Hd Hi
                    |w1 w2 w3 Hw Hv Hd Hi];
    pose proof (admission_frames _ _ _ _ _ Hw) as (Hv1 & Ht1 & Hs1 & _);
    try pose proof (preserves_download_image _ _ _ _ _ _ Hd) as (Hv2 & Ht2 & Hs2 & _);
    try pose proof (preserves_install_image _ _ _ _ _ _ Hi) as (Hv3 & Ht3 & Hs3 & _);
    cbn [after_log after_failure after_success dev device_type software_version
         last_upgrade_status state];
    (split; [congruence|]); (split; [try discriminate|try discriminate]).
  - intros _. split; [exact Hv1|]. left. exact Hs1.
  - intros _. split; [exact Hv1|]. left. exact Hs1.
  - intros _. split; [congruence|]. right. repeat split. congruence.
  - intros _. split; [congruence|]. right. repeat split. congruence.
  - intros _. repeat split. congruence.
Qed.

Lemma update_fields_after_return_witness :
  exists w',
    update unplugged_env 1 4 (world_of (Device_init 2 None)) = Some (false, w') /\
    software_version (dev w') = software_version (dev (world_of (Device_init 2 None))) /\
    (last_upgrade_status (dev w')
     = last_upgrade_status (dev (world_of (Device_init 2 None))) \/
     last_upgrade_status (dev w') = Failed /\
     state (dev w') = Idle /\
     software_version (dev (world_of (Device_init 2 None))) <> 4%Z).
Proof.
  assert (Hrun : exists w',
             update unplugged_env 1 4 (world_of (Device_init 2 None)) = Some (false, w'))
    by (eexists; vm_compute; reflexivity).
  destruct Hrun as (w' & Hrun). exists w'. split; [exact Hrun|].
  apply (proj2 (proj2 (update_fields_after_return unplugged_env 1 4
                         (world_of (Device_init 2 None)) false w' Hrun))).
  reflexivity.
Defined.

Lemma steady_clock_first_pass E timeout_duration w :
  clock_monotone E -> 0 < timeout_duration ->
  Qltb (time_at E (tick w) - time_at E (S (tick w))) timeout_duration = true.
Proof.
  intros Hmono Hpos. apply Qltb_lt.
  specialize (Hmono (tick w) (S (tick w)) ltac:(lia)). lra.
Qed.

(** X10.  Every run of [update] that got past the wait for Idle returns with
    the device Idle again, whatever happened in the phases; under a clock
    that never runs backwards the next request therefore passes its wait on
    the first look, without sleeping. *)
Theorem update_leaves_device_ready E fuel new_version w w1 b w' :
  admission E fuel w = Some (true, w1) ->
  update E fuel new_version w = Some (b, w') ->
  state (dev w') = Idle /\
  (clock_monotone E ->
   forall fuel', admission E (S fuel') w' = Some (true, bump (bump w'))).
Proof.
  intros Hw Hrun.
  assert (Hidle : state (dev w') = Idle).
  { apply update_Ending in Hrun.
    destruct Hrun as [u1 Hu|u1 Hu Hv|u1 u2 Hu Hv Hd|u1 u2 u3 Hu Hv Hd Hi
                      |u1 u2 u3 Hu Hv Hd Hi]; try reflexivity.
    - congruence.
    - rewrite Hw in Hu. injection Hu as <-.
      destruct (wait_shape _ _ _ _ _ _ _ Hw) as (_ & _ & Hst).
      cbn [after_log dev]. apply Hst. reflexivity. }
  split; [exact Hidle|].
  intros Hmono fuel'. unfold admission.
  pose proof (wait_already_there E fuel' w' (inject_Z MAX_WAIT_FOR_IDLE_TIME)) as Hnext.
  rewrite Hidle in Hnext. rewrite Hnext.
  rewrite (steady_clock_first_pass E (inject_Z MAX_WAIT_FOR_IDLE_TIME) w' Hmono eq_refl).
  reflexivity.
Qed.

Lemma update_leaves_device_ready_witness :
  let w := world_of (Device_init 2 None) in
  exists w',
    admission offline_env 1 w = Some (true, bump (bump w)) /\
    update offline_env 1 4 w = Some (false, w') /\
    state (dev w') = Idle /\
    admission offline_env 1 w' = Some (true, bump (bump w')).
Proof.
  cbv zeta.
  assert (Hw : admission offline_env 1 (world_of (Device_init 2 None))
               = Some (true, bump (bump (world_of (Device_init 2 None)))))
    by reflexivity.
  assert (Hrun : exists w',
             update offline_env 1 4 (world_of (Device_init 2 None)) = Some (false, w'))
    by (eexists; vm_compute; reflexivity).
  destruct Hrun as (w' & Hrun). exists w'.
  split; [exact Hw|]. split; [exact Hrun|].
  destruct (update_leaves_device_ready offline_env 1 4
              (world_of (Device_init 2 None)) _ false w' Hw Hrun)
    as (Hidle & Hnext).
  split; [exact Hidle|]. apply Hnext.
  intros n m H. cbn [time_at offline_env]. rewrite <- Zle_Qle. lia.
Defined.

(** ** Runs that complete *)

Lemma download_image_started E fuel new_version w :
  state (dev w) = Idle ->
  download_image E fuel new_version w
  = download_loop E fuel (spawned w) (time_at E (tick w)) (download_started new_version w).
Proof.
  intros Hstate. unfold download_image. unfold bind at 1.
  unfold get_current_state at 1.
  destruct (DeviceState_eq_dec (state (dev w)) Idle) as [_|Hne]; [|contradiction].
  unfold download_started, bind, log, set_state, Popen, time_time, ask, emit,
    set_dev, bump.
  cbn [isEnabledFor levelno logger_level Z.leb Z.compare Pos.compare
       Pos.compare_cont dev tick spawned trace software_version device_type
       last_upgrade_status state].
  rewrite <- !app_assoc. reflexivity.
Qed.

Lemma install_image_started E fuel new_version w :
  state (dev w) = Downloading ->
  install_image E fuel new_version w
  = install_loop E fuel (spawned w) (time_at E (tick w)) (install_started new_version w).
Proof.
  intros Hstate. unfold install_image. unfold bind at 1.
  unfold get_current_state at 1.
  destruct (DeviceState_eq_dec (state (dev w)) Downloading) as [_|Hne];
    [|contradiction].
  unfold install_started, bind, log, get_current_version, set_state, Popen,
    time_time, ask, emit, set_dev, bump.
  cbn [isEnabledFor levelno logger_level Z.leb Z.compare Pos.compare
       Pos.compare_cont dev tick spawned trace software_version device_type
       last_upgrade_status state].
  destruct (software_version (dev w) >? new_version)%Z;
    cbn [dev tick spawned trace software_version device_type
         last_upgrade_status state];
    rewrite <- !app_assoc; reflexivity.
Qed.

Lemma download_loop_completes E process done :
  clock_monotone E ->
  (forall t, http_get_at E t = Some 200%Z) ->
  (forall t, (done <= t)%nat -> poll_at E t process <> None) ->
  forall fuel k w,
    (k <= tick w)%nat ->
    (0 < fuel)%nat ->
    (done + 2 <= tick w + 4 * fuel)%nat ->
    exists w' n,
      download_loop E fuel process (time_at E k) w = Some (true, w') /\
      (n < fuel)%nat /\
      trace w' = trace w ++ repeat (EvSleep POLLING_TIME) n
                 ++ [EvLog INFO "Download completed successfully."] /\
      tick w' = (tick w + 3 + 4 * n)%nat /\
      spawned w' = spawned w /\
      ((forall t, foreign_write_at E t = None) -> dev w' = dev w).
Proof.
  intros Hmono Hnet Hdone. induction fuel as [|fuel IH]; intros k w Hk Hfuel Hbound;
    [lia|].
  rewrite download_loop_unfold. rewrite Hnet. cbn [Z.eqb Pos.eqb negb].
  assert (Hwithin : Qltb (time_at E k - time_at E (S (tick w)))
                      (inject_Z MAX_DOWNLOAD_TIME) = true).
  { apply Qltb_lt. specialize (Hmono k (S (tick w)) ltac:(lia)).
    assert (0 < inject_Z MAX_DOWNLOAD_TIME) by reflexivity. lra. }
  rewrite Hwithin. cbn [negb].
  destruct (poll_at E (S (S (tick w))) process) as [code|] eqn:Hpoll; cbn [is_not_None].
  - eexists. exists 0%nat. split; [reflexivity|].
    cbn [after_log trace tick spawned dev bump repeat app].
    repeat split; lia.
  - assert (Hlate : (S (S (tick w)) < done)%nat).
    { destruct (Nat.lt_ge_cases (S (S (tick w))) done) as [Hlt|Hge]; [exact Hlt|].
      exfalso. exact (Hdone _ Hge Hpoll). }
    destruct (time_sleep_run E POLLING_TIME (bump (bump (bump w))))
      as (w1 & Hs & Htk & Hsp & Htr & Hst).
    rewrite (bind_run _ Hs). cbn [tick bump trace spawned dev] in Htk, Hsp, Htr, Hst.
    destruct (IH k w1 ltac:(lia) ltac:(lia) ltac:(lia))
      as (w' & n & Hrun & Hn & Htr' & Htk' & Hsp' & Hdev').
    exists w', (S n). split; [exact Hrun|]. split; [lia|]. split; [|split; [|split]].
    + rewrite Htr', Htr. cbn [repeat]. rewrite <- !app_assoc. reflexivity.
    + lia.
    + congruence.
    + intros Hquiet. rewrite (Hdev' Hquiet).
      pose proof (preserves_time_sleep E POLLING_TIME _ _ _ Hs) as (Hv & Hty & Hstat & _).
      rewrite Hquiet in Hst. cbn [dev bump] in Hv, Hty, Hstat.
      destruct (dev w1), (dev w). cbn in *. congruence.
Qed.

Lemma install_loop_completes E process done :
  clock_monotone E ->
  (forall t, sensors_battery_at E t = Some (Some true)) ->
  (forall t, (done <= t)%nat -> poll_at E t process <> None) ->
  forall fuel k w,
    (k <= tick w)%nat ->
    (0 < fuel)%nat ->
    (done + 2 <= tick w + 5 * fuel)%nat ->
    exists w' n,
      install_loop E fuel process (time_at E k) w = Some (true, w') /\
      (n < fuel)%nat /\
      trace w' = trace w ++ repeat (EvSleep POLLING_TIME) n
                 ++ [EvLog INFO "Upgrade completed successfully."] /\
      tick w' = (tick w + 4 + 5 * n)%nat /\
      spawned w' = spawned w /\
      ((forall t, foreign_write_at E t = None) -> dev w' = dev w).
Proof.
  intros Hmono Hpower Hdone. induction fuel as [|fuel IH]; intros k w Hk Hfuel Hbound;
    [lia|].
  rewrite install_loop_unfold. rewrite Hpower. cbn [truthy negb].
  assert (Hwithin : Qltb (time_at E k - time_at E (S (tick w)))
                      (inject_Z MAX_UPGRADE_TIME) = true).
  { apply Qltb_lt. specialize (Hmono k (S (tick w)) ltac:(lia)).
    assert (0 < inject_Z MAX_UPGRADE_TIME) by reflexivity. lra. }
  rewrite Hwithin. cbn [negb].
  destruct (poll_at E (S (S (S (tick w)))) process) as [code|] eqn:Hpoll;
    cbn [is_not_None].
  - eexists. exists 0%nat. split; [reflexivity|].
    cbn [after_log trace tick spawned dev bump repeat app].
    repeat split; lia.
  - assert (Hlate : (S (S (S (tick w))) < done)%nat).
    { destruct (Nat.lt_ge_cases (S (S (S (tick w)))) done) as [Hlt|Hge]; [exact Hlt|].
      exfalso. exact (Hdone _ Hge Hpoll). }
    destruct (time_sleep_run E POLLING_TIME (bump (bump (bump (bump w)))))
      as (w1 & Hs & Htk & Hsp & Htr & Hst).
    rewrite (bind_run _ Hs). cbn [tick bump trace spawned dev] in Htk, Hsp, Htr, Hst.
    destruct (IH k w1 ltac:(lia) ltac:(lia) ltac:(lia))
      as (w' & n & Hrun & Hn & Htr' & Htk' & Hsp' & Hdev').
    exists w', (S n). split; [exact Hrun|]. split; [lia|]. split; [|split; [|split]].
    + rewrite Htr', Htr. cbn [repeat]. rewrite <- !app_assoc. reflexivity.
    + lia.
    + congruence.
    + intros Hquiet. rewrite (Hdev' Hquiet).
      pose proof (preserves_time_sleep E POLLING_TIME _ _ _ Hs) as (Hv & Hty & Hstat & _).
      rewrite Hquiet in Hst. cbn [dev bump] in Hv, Hty, Hstat.
      destruct (dev w1), (dev w). cbn in *. congruence.
Qed.

(** X11.  Download phase, completion.  Entered on an Idle device under a clock
    that never runs backwards, with the network answering 200 to every
    request and a child that has exited by question [done], the phase
    returns [True] once it has enough passes to reach that question: it
    sleeps [n] times, logs the completion and never terminates the child.
    If no other thread writes the state meanwhile, the device is left in
    [Downloading]. *)
Theorem download_image_completes E fuel new_version w done :
  clock_monotone E ->
  (forall t, http_get_at E t = Some 200%Z) ->
  (forall t, (done <= t)%nat -> poll_at E t (spawned w) <> None) ->
  state (dev w) = Idle ->
  (0 < fuel)%nat ->
  (done + 2 <= tick w + 4 * fuel)%nat ->
  exists w' n,
    download_image E fuel new_version w = Some (true, w') /\
    (n < fuel)%nat /\
    trace w' = trace w ++
      [EvLog INFO ("Starting software version " ++ str_of_int new_version
                   ++ " download.");
       EvSetState Downloading;
       EvSpawn (spawned w) ["curl"; "-O"; DOWNLOAD_URL]%string]
      ++ repeat (EvSleep POLLING_TIME) n
      ++ [EvLog INFO "Download completed successfully."] /\
    spawned w' = S (spawned w) /\
    ((forall t, foreign_write_at E t = None) -> state (dev w') = Downloading).
Proof.
  intros Hmono Hnet Hdone Hstate Hfuel Hbound.
  rewrite (download_image_started E fuel new_version w Hstate).
  destruct (download_loop_completes E (spawned w) done Hmono Hnet Hdone fuel
              (tick w) (download_started new_version w))
    as (w' & n & Hrun & Hn & Htr & _ & Hsp & Hdev).
  - cbn [download_started tick]. lia.
  - exact Hfuel.
  - cbn [download_started tick]. lia.
  - exists w', n. split; [exact Hrun|]. split; [exact Hn|]. split; [|split].
    + rewrite Htr. cbn [download_started trace]. rewrite <- !app_assoc. reflexivity.
    + rewrite Hsp. reflexivity.
    + intros Hquiet. rewrite (Hdev Hquiet). reflexivity.
Qed.

Lemma download_image_completes_witness :
  let E := calm_env 12 in
  let w := world_of (Device_init 2 None) in
  clock_monotone E /\
  state (dev w) = Idle /\
  (12 + 2 <= tick w + 4 * 4)%nat /\
  exists w' n,
    download_image E 4 4 w = Some (true, w') /\
    (n < 4)%nat /\
    spawned w' = 1%nat /\
    state (dev w') = Downloading.
Proof.
  cbv zeta. split; [apply calm_env_monotone|]. split; [reflexivity|].
  split; [cbn; lia|].
  destruct (download_image_completes (calm_env 12) 4 4 (world_of (Device_init 2 None)) 12)
    as (w' & n & Hrun & Hn & _ & Hsp & Hst).
  - apply calm_env_monotone.
  - reflexivity.
  - intros t Ht. cbn [poll_at calm_env].
    destruct (Nat.leb_spec 12 t); [discriminate|lia].
  - reflexivity.
  - lia.
  - cbn. lia.
  - exists w', n. split; [exact Hrun|]. split; [exact Hn|]. split; [exact Hsp|].
    apply Hst. reflexivity.
Defined.

(** The install phase of the first layer, where every drain returns. *)
Lemma first_layer_install_image_completes E fuel new_version w done :
  clock_monotone E ->
  (forall t, sensors_battery_at E t = Some (Some true)) ->
  (forall t, (done <= t)%nat -> poll_at E t (spawned w) <> None) ->
  state (dev w) = Downloading ->
  (0 < fuel)%nat ->
  (done + 2 <= tick w + 5 * fuel)%nat ->
  exists w' n,
    install_image E fuel new_version w = Some (true, w') /\
    (n < fuel)%nat /\
    trace w' = trace w ++
      [EvLog INFO ("Starting software update version " ++ str_of_int new_version
                   ++ " installation.");
       EvSetState (if (software_version (dev w) >? new_version)%Z
                   then Downgrading else Upgrading);
       EvSpawn (spawned w) ["sh"; "install.sh"]%string]
      ++ repeat (EvSleep POLLING_TIME) n
      ++ [EvLog INFO "Upgrade completed successfully."] /\
    spawned w' = S (spawned w) /\
    ((forall t, foreign_write_at E t = None) ->
     state (dev w') = if (software_version (dev w) >? new_version)%Z
                      then Downgrading else Upgrading).
Proof.
  intros Hmono Hpower Hdone Hstate Hfuel Hbound.
  rewrite (install_image_started E fuel new_version w Hstate).
  destruct (install_loop_completes E (spawned w) done Hmono Hpower Hdone fuel
              (tick w) (install_started new_version w))
    as (w' & n & Hrun & Hn & Htr & _ & Hsp & Hdev).
  - cbn [install_started tick]. lia.
  - exact Hfuel.
  - cbn [install_started tick]. lia.
  - exists w', n. split; [exact Hrun|]. split; [exact Hn|]. split; [|split].
    + rewrite Htr. cbn [install_started trace]. rewrite <- !app_assoc. reflexivity.
    + rewrite Hsp. reflexivity.
    + intros Hquiet. rewrite (Hdev Hquiet). reflexivity.
Qed.

(** A whole run of the first layer, where every child starts and every
    drain returns. *)
Lemma first_layer_update_completes E fuel new_version w done1 done2 :
  clock_monotone E ->
  (forall t, http_get_at E t = Some 200%Z) ->
  (forall t, sensors_battery_at E t = Some (Some true)) ->
  (forall t, foreign_write_at E t = None) ->
  (forall t, (done1 <= t)%nat -> poll_at E t (spawned w) <> None) ->
  (forall t, (done2 <= t)%nat -> poll_at E t (S (spawned w)) <> None) ->
  state (dev w) = Idle ->
  software_version (dev w) <> new_version ->
  (done1 + 2 <= 4 * fuel)%nat ->
  (done2 + 2 <= 5 * fuel)%nat ->
  exists w',
    update E fuel new_version w = Some (true, w') /\
    software_version (dev w') = new_version /\
    last_upgrade_status (dev w') = Success /\
    state (dev w') = Idle /\
    device_type (dev w') = device_type (dev w) /\
    spawned w' = S (S (spawned w)).
Proof.
  intros Hmono Hnet Hpower Hquiet Hdone1 Hdone2 Hstate Hver Hb1 Hb2.
  destruct fuel as [|fuel]; [lia|].
  assert (Hw : admission E (S fuel) w = Some (true, bump (bump w))).
  { unfold admission.
    pose proof (wait_already_there E fuel w (inject_Z MAX_WAIT_FOR_IDLE_TIME)) as H.
    rewrite Hstate in H. rewrite H.
    rewrite (steady_clock_first_pass E (inject_Z MAX_WAIT_FOR_IDLE_TIME) w Hmono eq_refl).
    reflexivity. }
  destruct (download_image_completes E (S fuel) new_version (bump (bump w)) done1
              Hmono Hnet Hdone1 Hstate ltac:(lia))
    as (w2 & n2 & Hd & _ & _ & Hsp2 & Hst2).
  { cbn [tick bump]. lia. }
  cbn [spawned bump] in Hsp2.
  destruct (first_layer_install_image_completes E (S fuel) new_version w2 done2 Hmono Hpower)
    as (w3 & n3 & Hi & _ & _ & Hsp3 & _).
  { rewrite Hsp2. exact Hdone2. }
  { exact (Hst2 Hquiet). }
  { lia. }
  { lia. }
  exists (after_success new_version w3). split.
  - apply update_Ending. eapply EndCommitted; eassumption.
  - cbn [after_success dev software_version last_upgrade_status state device_type
         spawned].
    repeat split.
    + destruct (preserves_download_image _ _ _ _ _ _ Hd) as (_ & Ht2 & _).
      destruct (preserves_install_image _ _ _ _ _ _ Hi) as (_ & Ht3 & _).
      rewrite Ht3, Ht2. reflexivity.
    + rewrite Hsp3, Hsp2. reflexivity.
Qed.

(** ** Failed attempts *)

(** X14.  A failed attempt reaps its child before it reports.  When the
    download phase of a run that got past the wait returns [False], the last
    four effects of the run are: terminate [curl], wait for its exit, write
    [last_upgrade_status = Failed], write [state = Idle].  The same holds
    for the install script when the install phase, entered in [Downloading],
    returns [False]. *)
Theorem update_failure_reaps_child E fuel new_version w w1 :
  admission E fuel w = Some (true, w1) ->
  software_version (dev w1) <> new_version ->
  (forall w2,
     download_image E fuel new_version w1 = Some (false, w2) ->
     exists w' before,
       update E fuel new_version w = Some (false, w') /\
       trace w' = before ++
         [EvTerminate (spawned w); EvJoin (spawned w);
          EvSetStatus Failed; EvSetState Idle]) /\
  (forall w2 w3,
     download_image E fuel new_version w1 = Some (true, w2) ->
     state (dev w2) = Downloading ->
     install_image E fuel new_version w2 = Some (false, w3) ->
     exists w' before,
       update E fuel new_version w = Some (false, w') /\
       trace w' = before ++
         [EvTerminate (S (spawned w)); EvJoin (S (spawned w));
          EvSetStatus Failed; EvSetState Idle]).
Proof.
  intros Hw Hv.
  destruct (wait_shape _ _ _ _ _ _ _ Hw) as (Hsp1 & _ & Hst1).
  specialize (Hst1 eq_refl).
  split.
  - intros w2 Hd. exists (after_failure w2).
    pose proof Hd as Hd'. rewrite (download_image_started E fuel new_version w1 Hst1) in Hd'.
    destruct (download_loop_effects _ _ _ _ _ _ _ Hd') as (_ & evs & Ht & Hfalse & _).
    destruct (Hfalse eq_refl) as (before & ->).
    exists (trace (download_started new_version w1) ++ before). split.
    + apply update_Ending. eapply EndDownloadFailed; eassumption.
    + cbn [after_failure trace]. rewrite Ht, Hsp1. rewrite <- !app_assoc. reflexivity.
  - intros w2 w3 Hd Hst2 Hi. exists (after_failure w3).
    pose proof Hd as Hd'. rewrite (download_image_started E fuel new_version w1 Hst1) in Hd'.
    destruct (download_loop_effects _ _ _ _ _ _ _ Hd') as (Hsp2 & _).
    cbn [download_started spawned] in Hsp2.
    pose proof Hi as Hi'. rewrite (install_image_started E fuel new_version w2 Hst2) in Hi'.
    destruct (install_loop_effects _ _ _ _ _ _ _ Hi') as (_ & evs & Ht & Hfalse & _).
    destruct (Hfalse eq_refl) as (before & ->).
    exists (trace (install_started new_version w2) ++ before). split.
    + apply update_Ending. eapply EndInstallFailed; eassumption.
    + cbn [after_failure trace]. rewrite Ht, Hsp2, Hsp1. rewrite <- !app_assoc.
      reflexivity.
Qed.

Lemma update_failure_reaps_child_witness :
  let w := world_of (Device_init 2 None) in
  let w1 := bump (bump w) in
  admission offline_env 1 w = Some (true, w1) /\
  software_version (dev w1) <> 4%Z /\
  exists w2 w' before,
    download_image offline_env 1 4 w1 = Some (false, w2) /\
    update offline_env 1 4 w = Some (false, w') /\
    trace w' = before ++
      [EvTerminate 0; EvJoin 0; EvSetStatus Failed; EvSetState Idle].
Proof.
  cbv zeta.
  assert (Hw : admission offline_env 1 (world_of (Device_init 2 None))
               = Some (true, bump (bump (world_of (Device_init 2 None)))))
    by reflexivity.
  assert (Hv : software_version (dev (bump (bump (world_of (Device_init 2 None)))))
               <> 4%Z) by discriminate.
  assert (Hd : exists w2,
             download_image offline_env 1 4
               (bump (bump (world_of (Device_init 2 None)))) = Some (false, w2))
    by (eexists; vm_compute; reflexivity).
  destruct Hd as (w2 & Hd).
  destruct (proj1 (update_failure_reaps_child offline_env 1 4 _ _ Hw Hv) w2 Hd)
    as (w' & before & Hrun & Htr).
  split; [exact Hw|]. split; [exact Hv|].
  exists w2, w', before. split; [exact Hd|]. split; [exact Hrun|exact Htr].
Defined.

(** X15.  The install phase re-checks the state the download phase wrote.
    When another thread has overwritten [Downloading] by the time a
    successful download returns, the install script is not started: the run
    writes [Failed] and [Idle] and returns [False], with the version
    unchanged and [curl] the only process started. *)
Theorem update_fails_when_state_overwritten E fuel new_version w w1 w2 :
  admission E fuel w = Some (true, w1) ->
  software_version (dev w1) <> new_version ->
  download_image E fuel new_version w1 = Some (true, w2) ->
  state (dev w2) <> Downloading ->
  update E fuel new_version w = Some (false, after_failure w2) /\
  spawned (after_failure w2) = S (spawned w) /\
  software_version (dev (after_failure w2)) = software_version (dev w) /\
  exists sleeps,
    trace (after_failure w2) = trace (download_started new_version w1)
      ++ repeat (EvSleep POLLING_TIME) sleeps
      ++ [EvLog INFO "Download completed successfully.";
          EvSetStatus Failed; EvSetState Idle].
Proof.
  intros Hw Hv Hd Hst2.
  destruct (wait_shape _ _ _ _ _ _ _ Hw) as (Hsp1 & _ & Hst1).
  specialize (Hst1 eq_refl).
  assert (Hi : install_image E fuel new_version w2 = Some (false, w2)).
  { unfold install_image. unfold bind at 1. unfold get_current_state at 1.
    destruct (DeviceState_eq_dec (state (dev w2)) Downloading); [contradiction|reflexivity]. }
  split; [apply update_Ending; eapply EndInstallFailed; eassumption|].
  pose proof Hd as Hd'. rewrite (download_image_started E fuel new_version w1 Hst1) in Hd'.
  destruct (admission_frames _ _ _ _ _ Hw) as (Hv1 & _).
  destruct (preserves_download_image _ _ _ _ _ _ Hd) as (Hv2 & _).
  cbn [after_failure spawned dev software_version trace].
  assert (Hshape : spawned w2 = S (spawned w1) /\
                   exists sleeps,
                     trace w2 = trace (download_started new_version w1)
                       ++ repeat (EvSleep POLLING_TIME) sleeps
                       ++ [EvLog INFO "Download completed successfully."]).
  { clear - Hd'. revert Hd'.
    generalize (time_at E (tick w1)). intros start_time.
    change (S (spawned w1)) with (spawned (download_started new_version w1)).
    generalize (download_started new_version w1). intros w0.
    generalize (spawned w1). intros process.
    revert w0. induction fuel as [|fuel IH]; intros w0; [discriminate|].
    rewrite download_loop_unfold.
    destruct (negb _); [discriminate|].
    destruct (negb _); [discriminate|].
    destruct (is_not_None _).
    - intros H. injection H as <-. split; [reflexivity|].
      exists 0%nat. reflexivity.
    - destruct (time_sleep_run E POLLING_TIME (bump (bump (bump w0))))
        as (w1' & Hs & _ & Hsp & Htr & _).
      rewrite (bind_run _ Hs). intros H.
      destruct (IH _ H) as (Hsp' & sleeps & Ht).
      split; [rewrite Hsp', Hsp; reflexivity|].
      exists (S sleeps). rewrite Ht, Htr. cbn [trace bump repeat].
      rewrite <- !app_assoc. reflexivity. }
  destruct Hshape as (Hsp2 & sleeps & Ht2).
  split; [rewrite Hsp2, Hsp1; reflexivity|].
  split; [congruence|].
  exists sleeps. rewrite Ht2. rewrite <- !app_assoc. reflexivity.
Qed.

Lemma update_fails_when_state_overwritten_witness :
  let E := meddling_env 8 in
  let w := world_of (Device_init 2 None) in
  let w1 := bump (bump w) in
  admission E 3 w = Some (true, w1) /\
  software_version (dev w1) <> 4%Z /\
  exists w2,
    download_image E 3 4 w1 = Some (true, w2) /\
    state (dev w2) <> Downloading /\
    update E 3 4 w = Some (false, after_failure w2) /\
    spawned (after_failure w2) = 1%nat.
Proof.
  cbv zeta.
  assert (Hw : admission (meddling_env 8) 3 (world_of (Device_init 2 None))
               = Some (true, bump (bump (world_of (Device_init 2 None)))))
    by reflexivity.
  assert (Hv : software_version (dev (bump (bump (world_of (Device_init 2 None)))))
               <> 4%Z) by discriminate.
  assert (Hd : exists w2,
             download_image (meddling_env 8) 3 4
               (bump (bump (world_of (Device_init 2 None)))) = Some (true, w2) /\
             state (dev w2) <> Downloading).
  { eexists. split; [vm_compute; reflexivity|]. discriminate. }
  destruct Hd as (w2 & Hd & Hst).
  destruct (update_fails_when_state_overwritten (meddling_env 8) 3 4 _ _ _ Hw Hv Hd Hst)
    as (Hrun & Hsp & _).
  split; [exact Hw|]. split; [exact Hv|].
  exists w2. split; [exact Hd|]. split; [exact Hst|]. split; [exact Hrun|exact Hsp].
Defined.

(** ** A new device *)

(** X16.  A device as [__init__] leaves it, asked for the version it was
    created with, is left as created: [update] returns [False] on its first
    look at the state, and the getters then report [No_Update], [Idle] and
    the initial version. *)
Theorem new_device_same_version E fuel initial_version dut :
  exists w',
    update E (S fuel) initial_version (world_of (Device_init initial_version dut))
    = Some (false, w') /\
    get_last_upgrade_result w' = Some (No_Update, w') /\
    get_current_state w' = Some (Idle, w') /\
    get_current_version w' = Some (initial_version, w') /\
    spawned w' = 0%nat.
Proof.
  unfold update.
  pose proof (wait_already_there E fuel (world_of (Device_init initial_version dut))
                (inject_Z MAX_WAIT_FOR_IDLE_TIME)) as Hw.
  cbn [world_of Device_init dev state] in Hw.
  cbn [world_of Device_init]. rewrite (bind_run _ Hw).
  destruct (Qltb _ _); cbn [negb].
  - unfold bind at 1. unfold get_current_version at 1.
    cbn [dev bump software_version]. rewrite Z.eqb_refl.
    eexists. split; [reflexivity|]. repeat split.
  - eexists. split; [reflexivity|]. repeat split.
Qed.

(** * The second layer: exceptions and blocking reads *)

(** ** Running its code *)

Lemma fallible_bind_lift {A B} (c : M A) (k : A -> X B) w :
  Fallible.bind (Fallible.lift c) k w
  = match c w with
    | Some (a, w1) => k a w1
    | None => None
    end.
Proof.
  unfold Fallible.bind, Fallible.lift. destruct (c w) as [[a w1]|]; reflexivity.
Qed.

Lemma fallible_bind_run {A B} (c : X A) (k : A -> X B) w a w1 :
  c w = Some (Returned a, w1) -> Fallible.bind c k w = k a w1.
Proof. unfold Fallible.bind. intros ->. reflexivity. Qed.

Lemma fallible_bind_raise {A B} (c : X A) (k : A -> X B) w e w1 :
  c w = Some (Raised e, w1) -> Fallible.bind c k w = Some (Raised e, w1).
Proof. unfold Fallible.bind. intros ->. reflexivity. Qed.

Lemma fallible_bind_Returned {A B} (c : X A) (k : A -> X B) w b w' :
  Fallible.bind c k w = Some (Returned b, w') ->
  exists a w1, c w = Some (Returned a, w1) /\ k a w1 = Some (Returned b, w').
Proof.
  unfold Fallible.bind. destruct (c w) as [[[a|e] w1]|]; try discriminate.
  intros H. exists a, w1. split; [reflexivity|exact H].
Qed.

Lemma fallible_lift_Returned {A} (c : M A) w a w1 :
  Fallible.lift c w = Some (Returned a, w1) -> c w = Some (a, w1).
Proof.
  unfold Fallible.lift. destruct (c w) as [[a0 w0]|]; intros H;
    [injection H as <- <-; reflexivity|discriminate].
Qed.

Lemma fallible_lift_run {A} (c : M A) w a w1 :
  c w = Some (a, w1) -> Fallible.lift c w = Some (Returned a, w1).
Proof. unfold Fallible.lift. intros ->. reflexivity. Qed.

Lemma fallible_bind_ext {A B} (c : X A) (k1 k2 : A -> X B) w :
  (forall a w1, k1 a w1 = k2 a w1) -> Fallible.bind c k1 w = Fallible.bind c k2 w.
Proof.
  intros H. unfold Fallible.bind. destruct (c w) as [[[a|e] w1]|];
    [apply H|reflexivity|reflexivity].
Qed.

Lemma fallible_bind_cong {A B} (c1 c2 : X A) (k1 k2 : A -> X B) w :
  c1 w = c2 w -> (forall a w1, k1 a w1 = k2 a w1) ->
  Fallible.bind c1 k1 w = Fallible.bind c2 k2 w.
Proof.
  intros Hc Hk. unfold Fallible.bind. rewrite Hc.
  destruct (c2 w) as [[[a|e] w1]|]; [apply Hk|reflexivity|reflexivity].
Qed.

Lemma fallible_lift_bind {A B} (c : M A) (k : A -> M B) w :
  Fallible.lift (bind c k) w
  = Fallible.bind (Fallible.lift c) (fun a => Fallible.lift (k a)) w.
Proof.
  unfold Fallible.lift, Fallible.bind, bind. destruct (c w) as [[a w1]|]; reflexivity.
Qed.

Arguments fallible_bind_run {A B c} k {w a w1} _.
Arguments fallible_bind_raise {A B c} k {w e w1} _.

Lemma fallible_give_up_run msg process w :
  Fallible.bind (Fallible.lift (log ERROR msg)) (fun _ =>
  Fallible.bind (Fallible.lift (process_terminate process)) (fun _ =>
  Fallible.bind (Fallible.lift (process_wait process)) (fun _ =>
  Fallible.ret false))) w
  = Some (Returned false,
          {| dev := dev w; tick := tick w; spawned := spawned w;
             trace := trace w ++ [EvLog ERROR msg; EvTerminate process; EvJoin process] |}).
Proof.
  unfold Fallible.bind, Fallible.lift, Fallible.ret, log, process_terminate,
    process_wait, emit.
  cbn [isEnabledFor levelno logger_level Z.leb Z.compare Pos.compare
       Pos.compare_cont dev tick spawned trace].
  rewrite <- !app_assoc. reflexivity.
Qed.

Lemma fallible_after_failure_run w :
  Fallible.bind (Fallible.lift (set_last_upgrade_status Failed)) (fun _ =>
  Fallible.bind (Fallible.lift (set_state Idle)) (fun _ =>
  Fallible.ret false)) w
  = Some (Returned false, after_failure w).
Proof.
  unfold after_failure. cbn. rewrite <- !app_assoc. reflexivity.
Qed.

Lemma fallible_after_success_run new_version w :
  Fallible.bind (Fallible.lift (set_last_upgrade_status Success)) (fun _ =>
  Fallible.bind (Fallible.lift (set_software_version new_version)) (fun _ =>
  Fallible.bind (Fallible.lift (set_state Idle)) (fun _ =>
  Fallible.bind (Fallible.lift
    (log INFO ("Software update to version " ++ str_of_int new_version ++ " complete.")))
    (fun _ => Fallible.ret true)))) w
  = Some (Returned true, after_success new_version w).
Proof.
  unfold after_success, Fallible.bind, Fallible.lift, Fallible.ret,
    set_last_upgrade_status, set_software_version, set_state, log, emit, set_dev.
  cbn [isEnabledFor levelno logger_level Z.leb Z.compare Pos.compare
       Pos.compare_cont dev tick spawned trace software_version device_type
       last_upgrade_status state].
  rewrite <- !app_assoc. reflexivity.
Qed.

Lemma fallible_drain_stdout_run U process w :
  Fallible.drain_stdout U process w
  = match stdout_end_at U (tick w) process with
    | AtEOF => Some (Returned tt, bump w)
    | HeldOpen => None
    | Undecodable => Some (Raised UnicodeDecodeError, bump w)
    end.
Proof.
  unfold Fallible.drain_stdout. rewrite fallible_bind_lift, log_lines_run.
  destruct (stdout_end_at U (tick w) process); reflexivity.
Qed.

Lemma fallible_install_loop_unfold U fuel process start_time w :
  Fallible.install_loop U (S fuel) process start_time w
  = match sensors_battery_at (base U) (tick w) with
    | None =>
        Some (Returned false,
              {| dev := dev w; tick := S (tick w); spawned := spawned w;
                 trace := trace w ++
                   [EvLog WARNING "Unable to determine battery status.";
                    EvLog ERROR "Power loss detected during the upgrade.";
                    EvTerminate process; EvJoin process] |})
    | Some power_plugged =>
        if negb (truthy power_plugged)
        then Some (Returned false,
                   {| dev := dev w; tick := S (tick w); spawned := spawned w;
                      trace := trace w ++
                        [EvLog ERROR "Power loss detected during the upgrade.";
                         EvTerminate process; EvJoin process] |})
        else if negb (Qltb (start_time - time_at (base U) (S (tick w)))
                        (inject_Z MAX_UPGRADE_TIME))
        then Some (Returned false,
                   {| dev := dev w; tick := S (S (tick w)); spawned := spawned w;
                      trace := trace w ++
                        [EvLog ERROR "Upgrade timed out after 600 seconds.";
                         EvTerminate process; EvJoin process] |})
        else match stdout_end_at U (S (S (tick w))) process with
             | AtEOF =>
                 if is_not_None (poll_at (base U) (S (S (S (tick w)))) process)
                 then Some (Returned true,
                            after_log INFO "Upgrade completed successfully."
                              (bump (bump (bump (bump w)))))
                 else Fallible.bind (Fallible.lift (time_sleep (base U) POLLING_TIME))
                        (fun _ => Fallible.install_loop U fuel process start_time)
                        (bump (bump (bump (bump w))))
             | HeldOpen => None
             | Undecodable =>
                 Some (Raised UnicodeDecodeError, bump (bump (bump w)))
             end
    end.
Proof.
  cbn [Fallible.install_loop]. rewrite fallible_bind_lift, get_power_status_run.
  destruct (sensors_battery_at (base U) (tick w)) as [power_plugged|].
  - destruct (negb (truthy power_plugged)).
    + apply fallible_give_up_run.
    + rewrite fallible_bind_lift. unfold check_install_timeout.
      rewrite check_time_not_exceeded_run. cbn [tick bump].
      destruct (negb _).
      * apply (fallible_give_up_run "Upgrade timed out after 600 seconds." process
                 (bump (bump w))).
      * unfold Fallible.bind at 1. rewrite fallible_drain_stdout_run. cbn [tick bump].
        destruct (stdout_end_at U (S (S (tick w))) process); try reflexivity.
        rewrite fallible_bind_lift. unfold process_poll at 1. unfold ask at 1.
        cbn [tick bump].
        destruct (is_not_None _); reflexivity.
  - cbn [truthy negb].
    rewrite fallible_give_up_run. cbn [after_log dev tick spawned trace bump].
    rewrite <- !app_assoc. reflexivity.
Qed.

(** ** How the two layers are related *)

Lemma fallible_install_loop_returns U fuel process start_time w b w' :
  Fallible.install_loop U fuel process start_time w = Some (Returned b, w') ->
  install_loop (base U) fuel process start_time w = Some (b, w').
Proof.
  revert w. induction fuel as [|fuel IH]; intros w; [discriminate|].
  rewrite fallible_install_loop_unfold, install_loop_unfold.
  destruct (sensors_battery_at (base U) (tick w)) as [power_plugged|].
  2:{ intros H. injection H as <- <-. reflexivity. }
  destruct (negb (truthy power_plugged)).
  { intros H. injection H as <- <-. reflexivity. }
  destruct (negb _).
  { intros H. injection H as <- <-. reflexivity. }
  destruct (stdout_end_at U (S (S (tick w))) process); try discriminate.
  destruct (is_not_None _).
  { intros H. injection H as <- <-. reflexivity. }
  rewrite fallible_bind_lift. unfold bind.
  destruct (time_sleep (base U) POLLING_TIME (bump (bump (bump (bump w)))))
    as [[[] w1]|]; [apply IH|discriminate].
Qed.

Lemma fallible_install_loop_unhindered U fuel process start_time w :
  (forall t, stdout_end_at U t process = AtEOF) ->
  Fallible.install_loop U fuel process start_time w
  = Fallible.lift (install_loop (base U) fuel process start_time) w.
Proof.
  intros Heof. revert w. induction fuel as [|fuel IH]; intros w; [reflexivity|].
  unfold Fallible.lift. rewrite fallible_install_loop_unfold, install_loop_unfold.
  rewrite Heof.
  destruct (sensors_battery_at (base U) (tick w)) as [power_plugged|];
    [|reflexivity].
  destruct (negb (truthy power_plugged)); [reflexivity|].
  destruct (negb _); [reflexivity|].
  destruct (is_not_None _); [reflexivity|].
  rewrite fallible_bind_lift. unfold bind.
  destruct (time_sleep (base U) POLLING_TIME (bump (bump (bump (bump w)))))
    as [[[] w1]|]; [|reflexivity].
  rewrite IH. reflexivity.
Qed.

Lemma fallible_download_image_unfold U fuel new_version w :
  Fallible.download_image U fuel new_version w
  = if DeviceState_eq_dec (state (dev w)) Idle
    then match popen_error_at U (spawned w) with
         | Some e => Some (Raised e, download_refused new_version w)
         | None =>
             Fallible.lift
               (download_loop (base U) fuel (spawned w) (time_at (base U) (tick w)))
               (download_started new_version w)
         end
    else Some (Returned false, w).
Proof.
  unfold Fallible.download_image, Fallible.Popen, Fallible.bind, Fallible.lift,
    Fallible.raise, Fallible.ret, get_current_state.
  destruct (DeviceState_eq_dec (state (dev w)) Idle) as [Hidle|Hbusy]; [|reflexivity].
  unfold log, set_state, Popen, time_time, ask, emit, set_dev, bump,
    download_refused, download_started.
  cbn [isEnabledFor levelno logger_level Z.leb Z.compare Pos.compare
       Pos.compare_cont dev tick spawned trace software_version device_type
       last_upgrade_status state].
  destruct (popen_error_at U (spawned w)) as [e|];
    cbn [dev tick spawned trace]; rewrite <- !app_assoc; reflexivity.
Qed.

Lemma fallible_install_image_unfold U fuel new_version w :
  Fallible.install_image U fuel new_version w
  = if DeviceState_eq_dec (state (dev w)) Downloading
    then match popen_error_at U (spawned w) with
         | Some e => Some (Raised e, install_refused new_version w)
         | None =>
             Fallible.install_loop U fuel (spawned w) (time_at (base U) (tick w))
               (install_started new_version w)
         end
    else Some (Returned false, w).
Proof.
  unfold Fallible.install_image, Fallible.Popen, Fallible.bind, Fallible.lift,
    Fallible.raise, Fallible.ret, get_current_state.
  destruct (DeviceState_eq_dec (state (dev w)) Downloading) as [Hdl|Hother];
    [|reflexivity].
  unfold log, get_current_version, set_state, Popen, time_time, ask, emit, set_dev,
    bump, install_refused, install_started.
  cbn [isEnabledFor levelno logger_level Z.leb Z.compare Pos.compare
       Pos.compare_cont dev tick spawned trace software_version device_type
       last_upgrade_status state].
  destruct (software_version (dev w) >? new_version)%Z;
    cbn [dev tick spawned trace software_version device_type
         last_upgrade_status state];
    destruct (popen_error_at U (spawned w)) as [e|];
    cbn [dev tick spawned trace]; rewrite <- !app_assoc; reflexivity.
Qed.

Lemma download_image_not_Idle E fuel new_version w :
  state (dev w) <> Idle -> download_image E fuel new_version w = Some (false, w).
Proof.
  intros Hstate. unfold download_image. unfold bind at 1.
  unfold get_current_state at 1.
  destruct (DeviceState_eq_dec (state (dev w)) Idle); [contradiction|reflexivity].
Qed.

Lemma install_image_not_Downloading E fuel new_version w :
  state (dev w) <> Downloading -> install_image E fuel new_version w = Some (false, w).
Proof.
  intros Hstate. unfold install_image. unfold bind at 1.
  unfold get_current_state at 1.
  destruct (DeviceState_eq_dec (state (dev w)) Downloading); [contradiction|reflexivity].
Qed.

Lemma fallible_download_image_returns U fuel new_version w b w' :
  Fallible.download_image U fuel new_version w = Some (Returned b, w') ->
  download_image (base U) fuel new_version w = Some (b, w').
Proof.
  rewrite fallible_download_image_unfold.
  destruct (DeviceState_eq_dec (state (dev w)) Idle) as [Hidle|Hbusy].
  - destruct (popen_error_at U (spawned w)); [discriminate|].
    rewrite (download_image_started (base U) fuel new_version w Hidle).
    apply fallible_lift_Returned.
  - intros H. injection H as <- <-. apply download_image_not_Idle. exact Hbusy.
Qed.

Lemma fallible_install_image_returns U fuel new_version w b w' :
  Fallible.install_image U fuel new_version w = Some (Returned b, w') ->
  install_image (base U) fuel new_version w = Some (b, w').
Proof.
  rewrite fallible_install_image_unfold.
  destruct (DeviceState_eq_dec (state (dev w)) Downloading) as [Hdl|Hother].
  - destruct (popen_error_at U (spawned w)); [discriminate|].
    rewrite (install_image_started (base U) fuel new_version w Hdl).
    apply fallible_install_loop_returns.
  - intros H. injection H as <- <-. apply install_image_not_Downloading. exact Hother.
Qed.

Lemma fallible_download_image_unhindered U fuel new_version w :
  (forall n, popen_error_at U n = None) ->
  Fallible.download_image U fuel new_version w
  = Fallible.lift (download_image (base U) fuel new_version) w.
Proof.
  intros Hspawn. rewrite fallible_download_image_unfold, Hspawn.
  destruct (DeviceState_eq_dec (state (dev w)) Idle) as [Hidle|Hbusy].
  - unfold Fallible.lift.
    rewrite (download_image_started (base U) fuel new_version w Hidle). reflexivity.
  - unfold Fallible.lift.
    rewrite (download_image_not_Idle (base U) fuel new_version w Hbusy). reflexivity.
Qed.

Lemma fallible_install_image_unhindered U fuel new_version w :
  (forall n, popen_error_at U n = None) ->
  (forall t pid, stdout_end_at U t pid = AtEOF) ->
  Fallible.install_image U fuel new_version w
  = Fallible.lift (install_image (base U) fuel new_version) w.
Proof.
  intros Hspawn Heof. rewrite fallible_install_image_unfold, Hspawn.
  destruct (DeviceState_eq_dec (state (dev w)) Downloading) as [Hdl|Hother].
  - rewrite (fallible_install_loop_unhindered U _ _ _ _ (fun t => Heof t _)).
    unfold Fallible.lift.
    rewrite (install_image_started (base U) fuel new_version w Hdl). reflexivity.
  - unfold Fallible.lift.
    rewrite (install_image_not_Downloading (base U) fuel new_version w Hother).
    reflexivity.
Qed.

(** Every run of the second layer that returns is a run of the first, with
    the same value and the same world. *)
Lemma fallible_update_returns_as_update U fuel new_version w b w' :
  Fallible.update U fuel new_version w = Some (Returned b, w') ->
  update (base U) fuel new_version w = Some (b, w').
Proof.
  intros H. apply update_Ending. unfold Fallible.update in H.
  apply fallible_bind_Returned in H. destruct H as (t & w1 & Hw & H).
  apply fallible_lift_Returned in Hw. fold (admission (base U) fuel) in Hw.
  destruct t; cbn [negb] in H.
  - rewrite fallible_bind_lift in H. unfold get_current_version at 1 in H.
    destruct (Z.eqb_spec (software_version (dev w1)) new_version) as [Heq|Hne].
    + rewrite fallible_bind_lift, (log_run INFO _ _ eq_refl) in H.
      injection H as <- <-. eapply EndSameVersion; eassumption.
    + apply fallible_bind_Returned in H. destruct H as (d & w2 & Hd & H).
      apply fallible_download_image_returns in Hd.
      destruct d; cbn [negb] in H.
      * apply fallible_bind_Returned in H. destruct H as (i & w3 & Hi & H).
        apply fallible_install_image_returns in Hi.
        destruct i; cbn [negb] in H.
        -- rewrite fallible_after_success_run in H. injection H as <- <-.
           eapply EndCommitted; eassumption.
        -- rewrite fallible_after_failure_run in H. injection H as <- <-.
           eapply EndInstallFailed; eassumption.
      * rewrite fallible_after_failure_run in H. injection H as <- <-.
        eapply EndDownloadFailed; eassumption.
  - rewrite fallible_bind_lift, (log_run ERROR _ _ eq_refl) in H.
    injection H as <- <-. eapply EndNotIdle; eassumption.
Qed.

(** When no spawn fails and every drain reaches the end of the output, the
    two layers coincide. *)
Lemma fallible_update_unhindered U fuel new_version w :
  (forall n, popen_error_at U n = None) ->
  (forall t pid, stdout_end_at U t pid = AtEOF) ->
  Fallible.update U fuel new_version w
  = Fallible.lift (update (base U) fuel new_version) w.
Proof.
  intros Hspawn Heof. unfold Fallible.update, update.
  rewrite fallible_lift_bind. apply fallible_bind_ext. intros t w1. cbv beta.
  destruct (negb t); [reflexivity|].
  rewrite fallible_lift_bind. apply fallible_bind_ext. intros version w2. cbv beta.
  destruct (version =? new_version)%Z; [reflexivity|].
  rewrite fallible_lift_bind. apply fallible_bind_cong;
    [apply fallible_download_image_unhindered; exact Hspawn|].
  intros d w3. cbv beta. destruct (negb d); [reflexivity|].
  rewrite fallible_lift_bind. apply fallible_bind_cong;
    [apply fallible_install_image_unhindered; assumption|].
  intros i w4. cbv beta. destruct (negb i); reflexivity.
Qed.

(** ** A failed attempt (C6) *)

(** Past the wait for Idle and the version check, a run is its two phases
    and the writes that follow them. *)
Lemma fallible_update_past_checks U fuel new_version w w1 :
  admission (base U) fuel w = Some (true, w1) ->
  software_version (dev w1) <> new_version ->
  Fallible.update U fuel new_version w
  = Fallible.bind (Fallible.download_image U fuel new_version)
      (fun download_success =>
         if negb download_success
         then Fallible.bind (Fallible.lift (set_last_upgrade_status Failed))
                (fun _ => Fallible.bind (Fallible.lift (set_state Idle))
                            (fun _ => Fallible.ret false))
         else Fallible.bind (Fallible.install_image U fuel new_version)
                (fun upgrade_success =>
                   if negb upgrade_success
                   then Fallible.bind (Fallible.lift (set_last_upgrade_status Failed))
                          (fun _ => Fallible.bind (Fallible.lift (set_state Idle))
                                      (fun _ => Fallible.ret false))
                   else Fallible.bind (Fallible.lift (set_last_upgrade_status Success))
                          (fun _ => Fallible.bind
                             (Fallible.lift (set_software_version new_version))
                             (fun _ => Fallible.bind (Fallible.lift (set_state Idle))
                                (fun _ => Fallible.bind
                                   (Fallible.lift
                                      (log INFO
                                         ("Software update to version "
                                          ++ str_of_int new_version ++ " complete.")))
                                   (fun _ => Fallible.ret true)))))) w1.
Proof.
  intros Hw Hv. unfold Fallible.update.
  rewrite (fallible_bind_run _ (fallible_lift_run _ _ _ _ Hw)). cbn [negb].
  rewrite fallible_bind_lift. unfold get_current_version at 1.
  destruct (Z.eqb_spec (software_version (dev w1)) new_version);
    [contradiction|reflexivity].
Qed.


(** C6, as the spec words it, fails.  On a machine where [curl] cannot be
    started, a new device at version 2 asked for version 4 passes the wait
    for Idle and the version check, writes [state = Downloading], and then
    [subprocess.Popen] raises: the exception leaves [update], the state stays
    [Downloading] and no status is recorded. *)
Lemma update_raises_when_curl_cannot_start :
  let U := no_executable (calm_env 0) in
  let w := world_of (Device_init 2 None) in
  admission (base U) 1 w = Some (true, bump (bump w)) /\
  software_version (dev (bump (bump w))) <> 4%Z /\
  Fallible.download_image U 1 4 (bump (bump w))
  = Some (Raised FileNotFoundError, download_refused 4 (bump (bump w))) /\
  Fallible.update U 1 4 w
  = Some (Raised FileNotFoundError, download_refused 4 (bump (bump w))) /\
  state (dev (download_refused 4 (bump (bump w)))) = Downloading /\
  state (dev (download_refused 4 (bump (bump w)))) <> Idle /\
  last_upgrade_status (dev (download_refused 4 (bump (bump w)))) = No_Update.
Proof.
  cbv zeta. split; [reflexivity|]. split; [discriminate|].
  split; [vm_compute; reflexivity|]. split; [vm_compute; reflexivity|].
  split; [reflexivity|]. split; [discriminate|reflexivity].
Qed.

(** C6 (amended).  A run that passed the wait for Idle, asked for a different
    version and then saw its download phase or its install phase return
    [False] returns [False] itself; its last two effects, after everything
    the failed phase did, are the writes [last_upgrade_status = Failed] and
    [state = Idle], and the version is the one the run started with. *)
Theorem update_failure_returned_converges U fuel new_version w w1 :
  admission (base U) fuel w = Some (true, w1) ->
  software_version (dev w1) <> new_version ->
  (forall w2,
     Fallible.download_image U fuel new_version w1 = Some (Returned false, w2) ->
     exists w',
       Fallible.update U fuel new_version w = Some (Returned false, w') /\
       trace w' = trace w2 ++ [EvSetStatus Failed; EvSetState Idle] /\
       state (dev w') = Idle /\
       last_upgrade_status (dev w') = Failed /\
       software_version (dev w') = software_version (dev w)) /\
  (forall w2 w3,
     Fallible.download_image U fuel new_version w1 = Some (Returned true, w2) ->
     Fallible.install_image U fuel new_version w2 = Some (Returned false, w3) ->
     exists w',
       Fallible.update U fuel new_version w = Some (Returned false, w') /\
       trace w' = trace w3 ++ [EvSetStatus Failed; EvSetState Idle] /\
       state (dev w') = Idle /\
       last_upgrade_status (dev w') = Failed /\
       software_version (dev w') = software_version (dev w)).
Proof.
  intros Hw Hv.
  destruct (admission_frames _ _ _ _ _ Hw) as (Hv1 & _).
  pose proof (fallible_update_past_checks U fuel new_version w w1 Hw Hv) as Hstart.
  split.
  - intros w2 Hd. exists (after_failure w2). split; [|split; [|split; [|split]]];
      try reflexivity.
    + rewrite Hstart, (fallible_bind_run _ Hd). cbn [negb].
      apply fallible_after_failure_run.
    + apply fallible_download_image_returns in Hd.
      destruct (preserves_download_image _ _ _ _ _ _ Hd) as (Hv2 & _).
      cbn [after_failure dev software_version]. congruence.
  - intros w2 w3 Hd Hi. exists (after_failure w3).
    split; [|split; [|split; [|split]]]; try reflexivity.
    + rewrite Hstart, (fallible_bind_run _ Hd). cbn [negb].
      rewrite (fallible_bind_run _ Hi). cbn [negb].
      apply fallible_after_failure_run.
    + apply fallible_download_image_returns in Hd.
      apply fallible_install_image_returns in Hi.
      destruct (preserves_download_image _ _ _ _ _ _ Hd) as (Hv2 & _).
      destruct (preserves_install_image _ _ _ _ _ _ Hi) as (Hv3 & _).
      cbn [after_failure dev software_version]. congruence.
Qed.

Lemma update_failure_returned_converges_witness :
  let w := world_of (Device_init 2 None) in
  let w1 := bump (bump w) in
  (admission (base (unhindered offline_env)) 1 w = Some (true, w1) /\
   software_version (dev w1) <> 4%Z /\
   exists w2 w',
     Fallible.download_image (unhindered offline_env) 1 4 w1
     = Some (Returned false, w2) /\
     Fallible.update (unhindered offline_env) 1 4 w = Some (Returned false, w') /\
     trace w' = trace w2 ++ [EvSetStatus Failed; EvSetState Idle] /\
     state (dev w') = Idle /\
     last_upgrade_status (dev w') = Failed /\
     software_version (dev w') = software_version (dev w)) /\
  (admission (base (unhindered unplugged_env)) 1 w = Some (true, w1) /\
   software_version (dev w1) <> 4%Z /\
   exists w2 w3 w',
     Fallible.download_image (unhindered unplugged_env) 1 4 w1
     = Some (Returned true, w2) /\
     Fallible.install_image (unhindered unplugged_env) 1 4 w2
     = Some (Returned false, w3) /\
     Fallible.update (unhindered unplugged_env) 1 4 w = Some (Returned false, w') /\
     trace w' = trace w3 ++ [EvSetStatus Failed; EvSetState Idle] /\
     state (dev w') = Idle /\
     last_upgrade_status (dev w') = Failed /\
     software_version (dev w') = software_version (dev w)).
Proof.
  cbv zeta. split.
  - assert (Hw : admission (base (unhindered offline_env)) 1
                   (world_of (Device_init 2 None))
                 = Some (true, bump (bump (world_of (Device_init 2 None)))))
      by reflexivity.
    assert (Hv : software_version (dev (bump (bump (world_of (Device_init 2 None)))))
                 <> 4%Z) by discriminate.
    assert (Hd : exists w2,
               Fallible.download_image (unhindered offline_env) 1 4
                 (bump (bump (world_of (Device_init 2 None))))
               = Some (Returned false, w2))
      by (eexists; vm_compute; reflexivity).
    destruct Hd as (w2 & Hd).
    destruct (proj1 (update_failure_returned_converges (unhindered offline_env) 1 4
                       _ _ Hw Hv) w2 Hd) as (w' & Hrun).
    split; [exact Hw|]. split; [exact Hv|].
    exists w2, w'. split; [exact Hd|exact Hrun].
  - assert (Hw : admission (base (unhindered unplugged_env)) 1
                   (world_of (Device_init 2 None))
                 = Some (true, bump (bump (world_of (Device_init 2 None)))))
      by reflexivity.
    assert (Hv : software_version (dev (bump (bump (world_of (Device_init 2 None)))))
                 <> 4%Z) by discriminate.
    assert (Hd : exists w2 w3,
               Fallible.download_image (unhindered unplugged_env) 1 4
                 (bump (bump (world_of (Device_init 2 None))))
               = Some (Returned true, w2) /\
               Fallible.install_image (unhindered unplugged_env) 1 4 w2
               = Some (Returned false, w3))
      by (eexists; eexists; split; vm_compute; reflexivity).
    destruct Hd as (w2 & w3 & Hd & Hi).
    destruct (proj2 (update_failure_returned_converges (unhindered unplugged_env) 1 4
                       _ _ Hw Hv) w2 w3 Hd Hi) as (w' & Hrun).
    split; [exact Hw|]. split; [exact Hv|].
    exists w2, w3, w'. split; [exact Hd|]. split; [exact Hi|exact Hrun].
Defined.

(** ** The child's output *)

Lemma fallible_install_loop_ignores_lines U out fuel process start_time w :
  Fallible.install_loop (with_lines U out) fuel process start_time w
  = Fallible.install_loop U fuel process start_time w.
Proof.
  revert w. induction fuel as [|fuel IH]; intros w; [reflexivity|].
  rewrite !fallible_install_loop_unfold.
  cbn [with_lines base with_stdout sensors_battery_at time_at poll_at stdout_end_at].
  destruct (sensors_battery_at (base U) (tick w)) as [power_plugged|]; [|reflexivity].
  destruct (negb (truthy power_plugged)); [reflexivity|].
  destruct (negb _); [reflexivity|].
  destruct (stdout_end_at U (S (S (tick w))) process); try reflexivity.
  destruct (is_not_None _); [reflexivity|].
  change (time_sleep (with_stdout (base U) out)) with (time_sleep (base U)).
  apply fallible_bind_ext. intros _ w1. apply IH.
Qed.

Lemma fallible_install_image_ignores_lines U out fuel new_version w :
  Fallible.install_image (with_lines U out) fuel new_version w
  = Fallible.install_image U fuel new_version w.
Proof.
  rewrite !fallible_install_image_unfold.
  cbn [with_lines base with_stdout time_at popen_error_at].
  destruct (DeviceState_eq_dec (state (dev w)) Downloading); [|reflexivity].
  destruct (popen_error_at U (spawned w)); [reflexivity|].
  apply fallible_install_loop_ignores_lines.
Qed.

Lemma fallible_download_image_ignores_lines U out fuel new_version w :
  Fallible.download_image (with_lines U out) fuel new_version w
  = Fallible.download_image U fuel new_version w.
Proof.
  rewrite !fallible_download_image_unfold.
  cbn [with_lines base with_stdout time_at popen_error_at].
  change (download_loop (with_stdout (base U) out)) with (download_loop (base U)).
  reflexivity.
Qed.

(** X3.  The text of the lines a child prints has no influence on a run.
    Every line read is logged at debug level, below the level of the logger,
    and dropped; two runs of [update] in surroundings that differ only in
    those lines (and agree on whether each drain reaches the end of the
    output, blocks, or meets bytes that do not decode) return or raise the
    same and leave the same device, trace and counters. *)
Theorem fallible_update_ignores_lines U out fuel new_version w :
  Fallible.update (with_lines U out) fuel new_version w
  = Fallible.update U fuel new_version w.
Proof.
  unfold Fallible.update. cbn [with_lines base].
  change (@wait (with_stdout (base U) out) DeviceState) with (@wait (base U) DeviceState).
  apply fallible_bind_ext. intros transitioned w1.
  destruct (negb transitioned); [reflexivity|].
  apply fallible_bind_ext. intros version w2.
  destruct (version =? new_version)%Z; [reflexivity|].
  apply fallible_bind_cong; [apply fallible_download_image_ignores_lines|].
  intros download_success w3.
  destruct (negb download_success); [reflexivity|].
  apply fallible_bind_cong; [apply fallible_install_image_ignores_lines|].
  reflexivity.
Qed.

(** ** The timeout guard, in general *)

(** X8.  For a positive duration the guard reads the clock once, touches
    nothing else, and can return [False] only when the clock reads less than
    [start_time].  So when [start_time] is an earlier reading of a clock that
    never runs backwards, the guard returns [True], and so do the install
    and the download guard. *)
Theorem check_time_not_exceeded_False_only_backwards E start_time duration w :
  0 < duration ->
  exists b,
    check_time_not_exceeded E start_time duration w = Some (b, bump w) /\
    (b = false -> time_at E (tick w) < start_time) /\
    (clock_monotone E ->
     forall k, (k <= tick w)%nat -> start_time = time_at E k ->
       b = true /\
       check_install_timeout E start_time w = Some (true, bump w) /\
       check_download_timeout E start_time w = Some (true, bump w)).
Proof.
  intros Hpos. eexists. split; [apply check_time_not_exceeded_run|]. split.
  - intros H. apply Z.ltb_ge in H.
    assert (Hle : duration <= start_time - time_at E (tick w)) by exact H.
    lra.
  - intros Hmono k Hk ->. split; [|split].
    + apply Qltb_lt. specialize (Hmono k (tick w) Hk). lra.
    + apply check_time_not_exceeded_always; [assumption|assumption|reflexivity].
    + apply check_time_not_exceeded_always; [assumption|assumption|reflexivity].
Qed.

Lemma check_time_not_exceeded_False_only_backwards_witness :
  let E := calm_env 0 in
  let w := {| dev := Device_init 2 None; tick := 5000; spawned := 0; trace := [] |} in
  0 < 1 /\
  clock_monotone E /\
  check_time_not_exceeded E (time_at E 0) 1 w = Some (true, bump w) /\
  check_install_timeout E (time_at E 0) w = Some (true, bump w) /\
  check_download_timeout E (time_at E 0) w = Some (true, bump w).
Proof.
  cbv zeta. split; [reflexivity|]. split; [apply calm_env_monotone|].
  destruct (check_time_not_exceeded_False_only_backwards (calm_env 0)
              (time_at (calm_env 0) 0) 1
              {| dev := Device_init 2 None; tick := 5000; spawned := 0; trace := [] |}
              eq_refl) as (b & Hrun & _ & Hmono).
  destruct (Hmono (calm_env_monotone 0) 0%nat ltac:(cbn [tick]; lia) eq_refl)
    as (-> & Hinstall & Hdownload).
  split; [exact Hrun|]. split; [exact Hinstall|exact Hdownload].
Defined.

(** ** Runs that complete, with exceptions and blocking reads in view *)

(** X12.  Install phase, completion.  Entered on a device in [Downloading],
    under a clock that never runs backwards, with the battery plugged at
    every question, an install script that can be started, output that
    reaches its end whenever it is drained, and a child that has exited by
    question [done], the phase returns [True] once it has enough passes to
    reach that question, after [n] sleeps and without terminating the
    child.  If no other thread writes the state meanwhile, the device is
    left in the direction written on entry. *)
Theorem install_image_completes_if_output_ends U fuel new_version w done :
  clock_monotone (base U) ->
  (forall t, sensors_battery_at (base U) t = Some (Some true)) ->
  popen_error_at U (spawned w) = None ->
  (forall t, stdout_end_at U t (spawned w) = AtEOF) ->
  (forall t, (done <= t)%nat -> poll_at (base U) t (spawned w) <> None) ->
  state (dev w) = Downloading ->
  (0 < fuel)%nat ->
  (done + 2 <= tick w + 5 * fuel)%nat ->
  exists w' n,
    Fallible.install_image U fuel new_version w = Some (Returned true, w') /\
    (n < fuel)%nat /\
    trace w' = trace w ++
      [EvLog INFO ("Starting software update version " ++ str_of_int new_version
                   ++ " installation.");
       EvSetState (if (software_version (dev w) >? new_version)%Z
                   then Downgrading else Upgrading);
       EvSpawn (spawned w) ["sh"; "install.sh"]%string]
      ++ repeat (EvSleep POLLING_TIME) n
      ++ [EvLog INFO "Upgrade completed successfully."] /\
    spawned w' = S (spawned w) /\
    ((forall t, foreign_write_at (base U) t = None) ->
     state (dev w') = if (software_version (dev w) >? new_version)%Z
                      then Downgrading else Upgrading).
Proof.
  intros Hmono Hpower Hspawn Heof Hdone Hstate Hfuel Hbound.
  destruct (first_layer_install_image_completes (base U) fuel new_version w done
              Hmono Hpower Hdone Hstate Hfuel Hbound) as (w' & n & Hrun & Hrest).
  exists w', n. split; [|exact Hrest].
  rewrite fallible_install_image_unfold.
  destruct (DeviceState_eq_dec (state (dev w)) Downloading) as [_|Hne];
    [|contradiction].
  rewrite Hspawn.
  rewrite (fallible_install_loop_unhindered U _ _ _ _ Heof).
  apply fallible_lift_run.
  rewrite <- (install_image_started (base U) fuel new_version w Hstate). exact Hrun.
Qed.

Lemma install_image_completes_if_output_ends_witness :
  let U := unhindered (calm_env 12) in
  let w := world_of (mkDevice 4 None No_Update Downloading) in
  clock_monotone (base U) /\
  popen_error_at U (spawned w) = None /\
  state (dev w) = Downloading /\
  (12 + 2 <= tick w + 5 * 3)%nat /\
  exists w' n,
    Fallible.install_image U 3 1 w = Some (Returned true, w') /\
    (n < 3)%nat /\
    spawned w' = 1%nat /\
    state (dev w') = Downgrading.
Proof.
  cbv zeta. split; [apply calm_env_monotone|]. split; [reflexivity|].
  split; [reflexivity|]. split; [cbn; lia|].
  destruct (install_image_completes_if_output_ends (unhindered (calm_env 12)) 3 1
              (world_of (mkDevice 4 None No_Update Downloading)) 12)
    as (w' & n & Hrun & Hn & _ & Hsp & Hst).
  - apply calm_env_monotone.
  - reflexivity.
  - reflexivity.
  - reflexivity.
  - intros t Ht. cbn [poll_at calm_env unhindered base].
    destruct (Nat.leb_spec 12 t); [discriminate|lia].
  - reflexivity.
  - lia.
  - cbn. lia.
  - exists w', n. split; [exact Hrun|]. split; [exact Hn|]. split; [exact Hsp|].
    apply Hst. reflexivity.
Defined.

(** X13.  A whole run, completion.  On an Idle device asked for a version
    other than its own, under a clock that never runs backwards, with the
    network answering 200 and the battery plugged at every question, no
    other thread writing the state, both children able to start, their
    output reaching its end whenever it is drained, and both exiting (by
    questions [done1] and [done2]), [update] returns [True] once it has
    enough passes: the device then runs the requested version, its last
    status is [Success], it is Idle, and exactly two processes were
    started. *)
Theorem update_completes_if_unhindered U fuel new_version w done1 done2 :
  clock_monotone (base U) ->
  (forall t, http_get_at (base U) t = Some 200%Z) ->
  (forall t, sensors_battery_at (base U) t = Some (Some true)) ->
  (forall t, foreign_write_at (base U) t = None) ->
  (forall n, popen_error_at U n = None) ->
  (forall t pid, stdout_end_at U t pid = AtEOF) ->
  (forall t, (done1 <= t)%nat -> poll_at (base U) t (spawned w) <> None) ->
  (forall t, (done2 <= t)%nat -> poll_at (base U) t (S (spawned w)) <> None) ->
  state (dev w) = Idle ->
  software_version (dev w) <> new_version ->
  (done1 + 2 <= 4 * fuel)%nat ->
  (done2 + 2 <= 5 * fuel)%nat ->
  exists w',
    Fallible.update U fuel new_version w = Some (Returned true, w') /\
    software_version (dev w') = new_version /\
    last_upgrade_status (dev w') = Success /\
    state (dev w') = Idle /\
    device_type (dev w') = device_type (dev w) /\
    spawned w' = S (S (spawned w)).
Proof.
  intros Hmono Hnet Hpower Hquiet Hspawn Heof Hdone1 Hdone2 Hstate Hver Hb1 Hb2.
  destruct (first_layer_update_completes (base U) fuel new_version w done1 done2
              Hmono Hnet Hpower Hquiet Hdone1 Hdone2 Hstate Hver Hb1 Hb2)
    as (w' & Hrun & Hrest).
  exists w'. split; [|exact Hrest].
  rewrite (fallible_update_unhindered U fuel new_version w Hspawn Heof).
  apply fallible_lift_run. exact Hrun.
Qed.

Lemma update_completes_if_unhindered_witness :
  let U := unhindered (calm_env 12) in
  let w := world_of (Device_init 2 None) in
  clock_monotone (base U) /\
  state (dev w) = Idle /\
  software_version (dev w) <> 4%Z /\
  (12 + 2 <= 4 * 4)%nat /\
  (12 + 2 <= 5 * 4)%nat /\
  exists w',
    Fallible.update U 4 4 w = Some (Returned true, w') /\
    software_version (dev w') = 4%Z /\
    last_upgrade_status (dev w') = Success /\
    state (dev w') = Idle /\
    device_type (dev w') = device_type (dev w) /\
    spawned w' = 2%nat.
Proof.
  cbv zeta. split; [apply calm_env_monotone|]. split; [reflexivity|].
  split; [discriminate|]. split; [cbn; lia|]. split; [cbn; lia|].
  apply (update_completes_if_unhindered (unhindered (calm_env 12)) 4 4
           (world_of (Device_init 2 None)) 12 12).
  - apply calm_env_monotone.
  - reflexivity.
  - reflexivity.
  - reflexivity.
  - reflexivity.
  - reflexivity.
  - intros t Ht. cbn [poll_at calm_env unhindered base].
    destruct (Nat.leb_spec 12 t); [discriminate|lia].
  - intros t Ht. cbn [poll_at calm_env unhindered base].
    destruct (Nat.leb_spec 12 t); [discriminate|lia].
  - reflexivity.
  - discriminate.
  - cbn. lia.
  - cbn. lia.
Defined.

(** ** What is not caught *)

(** X17.  [update] catches nothing.  Past the wait for Idle and the version
    check, whatever the download phase raises leaves [update] as it is, in
    the world the phase left, with no status and no state written after it;
    and so does whatever the install phase raises after a download that
    returned [True]. *)
Theorem update_propagates_exceptions U fuel new_version w w1 :
  admission (base U) fuel w = Some (true, w1) ->
  software_version (dev w1) <> new_version ->
  (forall e w2,
     Fallible.download_image U fuel new_version w1 = Some (Raised e, w2) ->
     Fallible.update U fuel new_version w = Some (Raised e, w2)) /\
  (forall e w2 w3,
     Fallible.download_image U fuel new_version w1 = Some (Returned true, w2) ->
     Fallible.install_image U fuel new_version w2 = Some (Raised e, w3) ->
     Fallible.update U fuel new_version w = Some (Raised e, w3)).
Proof.
  intros Hw Hv.
  pose proof (fallible_update_past_checks U fuel new_version w w1 Hw Hv) as Hstart.
  split.
  - intros e w2 Hd. rewrite Hstart. apply (fallible_bind_raise _ Hd).
  - intros e w2 w3 Hd Hi. rewrite Hstart, (fallible_bind_run _ Hd). cbn [negb].
    apply (fallible_bind_raise _ Hi).
Qed.

Lemma update_propagates_exceptions_witness :
  let U := no_executable (calm_env 0) in
  let w := world_of (Device_init 2 None) in
  let w1 := bump (bump w) in
  admission (base U) 1 w = Some (true, w1) /\
  software_version (dev w1) <> 4%Z /\
  Fallible.download_image U 1 4 w1
  = Some (Raised FileNotFoundError, download_refused 4 w1) /\
  Fallible.update U 1 4 w = Some (Raised FileNotFoundError, download_refused 4 w1).
Proof.
  cbv zeta.
  assert (Hw : admission (base (no_executable (calm_env 0))) 1
                 (world_of (Device_init 2 None))
               = Some (true, bump (bump (world_of (Device_init 2 None)))))
    by reflexivity.
  assert (Hv : software_version (dev (bump (bump (world_of (Device_init 2 None)))))
               <> 4%Z) by discriminate.
  assert (Hd : Fallible.download_image (no_executable (calm_env 0)) 1 4
                 (bump (bump (world_of (Device_init 2 None))))
               = Some (Raised FileNotFoundError,
                       download_refused 4 (bump (bump (world_of (Device_init 2 None))))))
    by (vm_compute; reflexivity).
  split; [exact Hw|]. split; [exact Hv|]. split; [exact Hd|].
  exact (proj1 (update_propagates_exceptions (no_executable (calm_env 0)) 1 4 _ _ Hw Hv)
           _ _ Hd).
Defined.

(** X18.  The drain of the install loop reads until the end of the output.
    Entered in [Downloading] with the script started, the battery plugged
    and the clock not running backwards, the phase does not return from its
    first pass when the output it drains there never ends, whether or not
    the child has exited; and when that output holds bytes that do not
    decode, the phase raises [UnicodeDecodeError] from its first pass, with
    the direction still in [state] and the child neither terminated nor
    waited for. *)
Theorem install_image_first_drain U fuel new_version w :
  clock_monotone (base U) ->
  state (dev w) = Downloading ->
  popen_error_at U (spawned w) = None ->
  sensors_battery_at (base U) (S (tick w)) = Some (Some true) ->
  (stdout_end_at U (S (S (S (tick w)))) (spawned w) = HeldOpen ->
   Fallible.install_image U fuel new_version w = None) /\
  (stdout_end_at U (S (S (S (tick w)))) (spawned w) = Undecodable ->
   Fallible.install_image U (S fuel) new_version w
   = Some (Raised UnicodeDecodeError,
           bump (bump (bump (install_started new_version w))))).
Proof.
  intros Hmono Hstate Hspawn Hpower.
  assert (Hwithin : Qltb (time_at (base U) (tick w) - time_at (base U) (S (S (tick w))))
                      (inject_Z MAX_UPGRADE_TIME) = true).
  { apply Qltb_lt. specialize (Hmono (tick w) (S (S (tick w))) ltac:(lia)).
    assert (0 < inject_Z MAX_UPGRADE_TIME) by reflexivity. lra. }
  split; intros Hend; rewrite fallible_install_image_unfold;
    (destruct (DeviceState_eq_dec (state (dev w)) Downloading) as [_|Hne];
     [|contradiction]);
    rewrite Hspawn.
  - destruct fuel as [|fuel]; [reflexivity|].
    rewrite fallible_install_loop_unfold. cbn [install_started tick].
    rewrite Hpower. cbn [truthy negb]. rewrite Hwithin. cbn [negb].
    rewrite Hend. reflexivity.
  - rewrite fallible_install_loop_unfold. cbn [install_started tick].
    rewrite Hpower. cbn [truthy negb]. rewrite Hwithin. cbn [negb].
    rewrite Hend. reflexivity.
Qed.

Lemma install_image_first_drain_witness :
  let w := world_of (mkDevice 2 None No_Update Downloading) in
  (poll_at (base (output_ending HeldOpen 0)) 4 0 = Some 0%Z /\
   Fallible.install_image (output_ending HeldOpen 0) 50 4 w = None) /\
  Fallible.install_image (output_ending Undecodable 0) 1 4 w
  = Some (Raised UnicodeDecodeError, bump (bump (bump (install_started 4 w)))).
Proof.
  cbv zeta. split; [split; [reflexivity|]|].
  - apply (proj1 (install_image_first_drain (output_ending HeldOpen 0) 50 4
                    (world_of (mkDevice 2 None No_Update Downloading))
                    (calm_env_monotone 0) eq_refl eq_refl eq_refl)).
    reflexivity.
  - apply (proj2 (install_image_first_drain (output_ending Undecodable 0) 0 4
                    (world_of (mkDevice 2 None No_Update Downloading))
                    (calm_env_monotone 0) eq_refl eq_refl eq_refl)).
    reflexivity.
Defined.
